(** * EvaluationLoop (pytorch_lightning/loops/evaluation_loop.py)

    A shallow embedding of the evaluation loop: the loop object is a record,
    its methods are state-passing functions that may raise, and every call the
    loop makes to its host (the trainer and its collaborators) is appended to a
    chronological log. *)

From Stdlib Require Import ZArith List String Bool Lia.
Import ListNotations.

Open Scope string_scope.
Open Scope Z_scope.
Open Scope list_scope.

Set Warnings "-register-all".

(** ** Python values *)

(** The values that flow through the loop: batches, step outputs, hook
    arguments.  [PResult] is an instance of [Result] (a dict subclass), the
    only kind of output [store_predictions] inspects; [PDict] is a plain
    dict. *)
Inductive pyval : Type :=
| PNone
| PInt (z : Z)
| PStr (s : string)
| PList (items : list pyval)
| PDict (fields : list (string * pyval))
| PResult (fields : list (string * pyval)).

(** [v is None] *)
Definition is_None (v : pyval) : bool :=
  match v with PNone => true | _ => false end.

(** [isinstance(v, Result)] *)
Definition is_Result (v : pyval) : bool :=
  match v with PResult _ => true | _ => false end.

(** ** Ordered dictionaries *)

Module OrderedDict.

(** Keys in insertion order. *)
Definition t : Type := list (string * pyval).

(** [d[k] = v]: an existing key keeps its position, a new key goes last. *)
Fixpoint setitem (d : t) (k : string) (v : pyval) : t :=
  match d with
  | [] => [(k, v)]
  | (k', v') :: d' =>
      if String.eqb k' k then (k', v) :: d' else (k', v') :: setitem d' k v
  end.

(** [d.pop(k, default)]: the value removed and the remaining mapping. *)
Fixpoint pop (d : t) (k : string) (default : pyval) : pyval * t :=
  match d with
  | [] => (default, [])
  | (k', v') :: d' =>
      if String.eqb k' k then (v', d')
      else let '(v, r) := pop d' k default in (v, (k', v') :: r)
  end.

Definition keys (d : t) : list string := map fst d.

End OrderedDict.

(** ** Exceptions and the loop monad *)

Inductive exn : Type :=
| StopIteration
| TypeError
| MisconfigurationException
| OtherException (name : string).

Inductive res (A : Type) : Type :=
| Ok (a : A)
| Raise (e : exn).
Arguments Ok {A} a.
Arguments Raise {A} e.

(** ** The data source cursor: [enumerate(dataloader)] *)

Record Enumerate : Type := {
  enum_next : Z;
  enum_rest : list pyval
}.

Definition enumerate (dataloader : list pyval) : Enumerate :=
  {| enum_next := 0; enum_rest := dataloader |}.

(** ** PredictionCollection *)

Module PredictionCollection.

(** Modelled from the spec: the class [PredictionCollection]
    (pytorch_lightning.trainer.supporters) is not part of the sources.  The
    spec describes it as an ordered sequence of captured prediction values
    tagged with the process rank and world size; a batch whose predictions
    are [[p_i]] contributes its elements, in batch order, and an absent
    predictions field contributes nothing. *)
Record t : Type := {
  global_rank : Z;
  world_size : Z;
  items : list pyval
}.

Definition new (rank size : Z) : t :=
  {| global_rank := rank; world_size := size; items := [] |}.

(** Modelled from the spec: what one [predictions] value contributes. *)
Definition values (v : pyval) : list pyval :=
  match v with
  | PNone => []
  | PList l => l
  | _ => [v]
  end.

(** Modelled from the spec: [add] of the absent class. *)
Definition add (c : t) (v : pyval) : t :=
  {| global_rank := global_rank c;
     world_size := world_size c;
     items := items c ++ values v |}.

End PredictionCollection.

(** ** The host *)

(** One entry of the log per call the loop makes to a host collaborator, in
    the order the calls happen.  [StorePredictions] marks the entry of the
    loop's own [store_predictions]. *)
Inductive Event : Type :=
| LoggerOnEvaluationBatchStart (batch : pyval) (dataloader_idx : Z)
                               (num_dataloaders : option Z)
| CallHook (name : string) (args : list pyval)
| ProfileEnter (name : string)
| ProfileExit (name : string)
| NewResults
| SetCurrentFxName (name : string)
| AcceleratorTestStep (step_kwargs : OrderedDict.t)
| AcceleratorValidationStep (step_kwargs : OrderedDict.t)
| CacheLoggedMetrics
| TrackBatchSize (batch : pyval)
| StorePredictions (output : pyval) (batch_idx dataloader_idx : Z)
| PredictionsAdd (value : pyval)
| TrackEvalLossHistory (batch_idx dataloader_idx : Z) (output : pyval)
| LogEvaluationStepMetrics
| TrackOutputForEpochEnd (output : pyval).

(** The part of [self.trainer] the loop reads.  Hooks and step functions are
    functions of their arguments and may raise; the collaborators that only
    receive notifications (logger connector, profiler, debugger) appear in the
    log alone. *)
Record Trainer : Type := {
  testing : bool;
  global_rank : Z;
  world_size : Z;
  call_hook : string -> list pyval -> res pyval;
  accelerator_test_step : OrderedDict.t -> res pyval;
  accelerator_validation_step : OrderedDict.t -> res pyval;
  _track_output_for_epoch_end : list pyval -> pyval -> list pyval
}.

(** Modelled from the spec: the trainer's [_track_output_for_epoch_end] is not
    part of the sources.  The spec's default policy appends non-null outputs
    to an ordered sequence. *)
Definition default_track_output (outputs : list pyval) (output : pyval)
  : list pyval :=
  if is_None output then outputs else outputs ++ [output].

(** ** The loop object *)

Record EvaluationLoop : Type := {
  iteration_count : Z;
  predictions : option PredictionCollection.t;
  dataloader : option Enumerate;
  dl_max_batches : option Z;
  dataloader_idx : option Z;
  num_dataloaders : option Z;
  batch_idx : option Z;
  outputs : list pyval
}.

(** The loop together with the log of host calls. *)
Record World : Type := {
  self : EvaluationLoop;
  calls : list Event
}.

Definition M (A : Type) : Type := World -> res A * World.

Definition ret {A} (a : A) : M A := fun w => (Ok a, w).

Definition raise {A} (e : exn) : M A := fun w => (Raise e, w).

(** A raised exception skips the continuation; the state reached so far
    stays. *)
Definition bind {A B} (m : M A) (k : A -> M B) : M B :=
  fun w =>
    match m w with
    | (Ok a, w') => k a w'
    | (Raise e, w') => (Raise e, w')
    end.

Notation "x <- m ;; k" := (bind m (fun x => k))
  (at level 61, m at next level, right associativity).
Notation "m ;;; k" := (bind m (fun _ => k))
  (at level 61, right associativity).

Definition lift {A} (r : res A) : M A := fun w => (r, w).

Definition gets {A} (f : EvaluationLoop -> A) : M A :=
  fun w => (Ok (f (self w)), w).

Definition modify (f : EvaluationLoop -> EvaluationLoop) : M unit :=
  fun w => (Ok tt, {| self := f (self w); calls := calls w |}).

Definition log (e : Event) : M unit :=
  fun w => (Ok tt, {| self := self w; calls := calls w ++ [e] |}).

(** [with profiler.profile(name): body]; the scope is left on an exception
    too. *)
Definition profile {A} (name : string) (body : M A) : M A :=
  fun w =>
    let '(r, w') := (log (ProfileEnter name) ;;; body) w in
    (r, {| self := self w'; calls := calls w' ++ [ProfileExit name] |}).

(** [__init__] *)
Definition init : EvaluationLoop :=
  {| iteration_count := 0;
     predictions := None;
     dataloader := None;
     dl_max_batches := None;
     dataloader_idx := None;
     num_dataloaders := None;
     batch_idx := None;
     outputs := [] |}.

Definition set_batch_idx (v : option Z) (l : EvaluationLoop) : EvaluationLoop :=
  {| iteration_count := iteration_count l;
     predictions := predictions l;
     dataloader := dataloader l;
     dl_max_batches := dl_max_batches l;
     dataloader_idx := dataloader_idx l;
     num_dataloaders := num_dataloaders l;
     batch_idx := v;
     outputs := outputs l |}.

Definition set_dataloader (v : option Enumerate) (l : EvaluationLoop)
  : EvaluationLoop :=
  {| iteration_count := iteration_count l;
     predictions := predictions l;
     dataloader := v;
     dl_max_batches := dl_max_batches l;
     dataloader_idx := dataloader_idx l;
     num_dataloaders := num_dataloaders l;
     batch_idx := batch_idx l;
     outputs := outputs l |}.

Definition set_predictions (v : option PredictionCollection.t)
  (l : EvaluationLoop) : EvaluationLoop :=
  {| iteration_count := iteration_count l;
     predictions := v;
     dataloader := dataloader l;
     dl_max_batches := dl_max_batches l;
     dataloader_idx := dataloader_idx l;
     num_dataloaders := num_dataloaders l;
     batch_idx := batch_idx l;
     outputs := outputs l |}.

Definition set_outputs (v : list pyval) (l : EvaluationLoop) : EvaluationLoop :=
  {| iteration_count := iteration_count l;
     predictions := predictions l;
     dataloader := dataloader l;
     dl_max_batches := dl_max_batches l;
     dataloader_idx := dataloader_idx l;
     num_dataloaders := num_dataloaders l;
     batch_idx := batch_idx l;
     outputs := v |}.

Definition set_iteration_count (v : Z) (l : EvaluationLoop) : EvaluationLoop :=
  {| iteration_count := v;
     predictions := predictions l;
     dataloader := dataloader l;
     dl_max_batches := dl_max_batches l;
     dataloader_idx := dataloader_idx l;
     num_dataloaders := num_dataloaders l;
     batch_idx := batch_idx l;
     outputs := outputs l |}.

(** ** The methods of [EvaluationLoop] *)

Section Methods.

(** [self.trainer], fixed once the loop is connected. *)
Variable trainer : Trainer.

(** [done]: [self.batch_idx is not None and
    self.batch_idx >= self.dl_max_batches].  The comparison of an int with
    [None] raises [TypeError]; [and] does not evaluate it when [batch_idx]
    is [None]. *)
Definition done (l : EvaluationLoop) : res bool :=
  match batch_idx l with
  | None => Ok false
  | Some i =>
      match dl_max_batches l with
      | None => Raise TypeError
      | Some m => Ok (m <=? i)
      end
  end.

Definition reset (l : EvaluationLoop) : EvaluationLoop :=
  {| iteration_count := 0;
     predictions :=
       Some (PredictionCollection.new (global_rank trainer)
                                      (world_size trainer));
     dataloader := dataloader l;
     dl_max_batches := None;
     dataloader_idx := None;
     num_dataloaders := None;
     batch_idx := batch_idx l;
     outputs := [] |}.

Definition on_run_start (l : EvaluationLoop) (dataloader_ : list pyval)
  (dl_max_batches_ dataloader_idx_ num_dataloaders_ : Z) : EvaluationLoop :=
  {| iteration_count := iteration_count l;
     predictions := predictions l;
     dataloader := Some (enumerate dataloader_);
     dl_max_batches := Some dl_max_batches_;
     dataloader_idx := Some dataloader_idx_;
     num_dataloaders := Some num_dataloaders_;
     batch_idx := batch_idx l;
     outputs := outputs l |}.

Definition on_run_end (l : EvaluationLoop) : list pyval := outputs l.

(** [next(self.dataloader)]: [TypeError] when no iterator was installed,
    [StopIteration] when it is exhausted; otherwise the pair and the
    iterator moved by one. *)
Definition next_dataloader : M (Z * pyval) :=
  fun w =>
    match dataloader (self w) with
    | None => (Raise TypeError, w)
    | Some e =>
        match enum_rest e with
        | [] => (Raise StopIteration, w)
        | batch :: rest =>
            (Ok (enum_next e, batch),
             {| self :=
                  set_dataloader
                    (Some {| enum_next := enum_next e + 1;
                             enum_rest := rest |}) (self w);
                calls := calls w |})
        end
    end.

(** [self.num_dataloaders > 1] *)
Definition num_dataloaders_gt_1 : M bool :=
  n <- gets num_dataloaders ;;
  match n with
  | None => raise TypeError
  | Some n => ret (1 <? n)
  end.

Definition _build_kwargs (batch : pyval) (batch_idx_ dataloader_idx_ : Z)
  : M OrderedDict.t :=
  let step_kwargs := [("batch", batch); ("batch_idx", PInt batch_idx_)] in
  multiple_val_loaders <-
    (if negb (testing trainer) then num_dataloaders_gt_1 else ret false) ;;
  multiple_test_loaders <-
    (if testing trainer then num_dataloaders_gt_1 else ret false) ;;
  if multiple_test_loaders || multiple_val_loaders
  then ret (OrderedDict.setitem step_kwargs "dataloader_idx"
              (PInt dataloader_idx_))
  else ret step_kwargs.

Definition evaluation_step (batch : pyval) (batch_idx_ dataloader_idx_ : Z)
  : M pyval :=
  step_kwargs <- _build_kwargs batch batch_idx_ dataloader_idx_ ;;
  log NewResults ;;;
  output <-
    (if testing trainer then
       log (SetCurrentFxName "test_step") ;;;
       profile "test_step"
         (log (AcceleratorTestStep step_kwargs) ;;;
          lift (accelerator_test_step trainer step_kwargs))
     else
       log (SetCurrentFxName "validation_step") ;;;
       profile "validation_step"
         (log (AcceleratorValidationStep step_kwargs) ;;;
          lift (accelerator_validation_step trainer step_kwargs))) ;;
  log CacheLoggedMetrics ;;;
  (if is_Result output then log (TrackBatchSize batch) else ret tt) ;;;
  ret output.

Definition evaluation_step_end (output : pyval) : M pyval :=
  if testing trainer then
    log (CallHook "test_step_end" [output]) ;;;
    lift (call_hook trainer "test_step_end" [output])
  else
    log (CallHook "validation_step_end" [output]) ;;;
    lift (call_hook trainer "validation_step_end" [output]).

Definition on_evaluation_batch_start (batch : pyval)
  (batch_idx_ dataloader_idx_ : Z) : M unit :=
  n <- gets num_dataloaders ;;
  log (LoggerOnEvaluationBatchStart batch dataloader_idx_ n) ;;;
  let args := [batch; PInt batch_idx_; PInt dataloader_idx_] in
  if testing trainer then
    log (CallHook "on_test_batch_start" args) ;;;
    _ <- lift (call_hook trainer "on_test_batch_start" args) ;;
    ret tt
  else
    log (CallHook "on_validation_batch_start" args) ;;;
    _ <- lift (call_hook trainer "on_validation_batch_start" args) ;;
    ret tt.

(** [output.pop('predictions', None)] takes the key out of the object that
    [advance] still holds, so the method hands the output back as it is
    after the call. *)
Definition store_predictions (output : pyval)
  (batch_idx_ dataloader_idx_ : Z) : M pyval :=
  log (StorePredictions output batch_idx_ dataloader_idx_) ;;;
  p <- gets predictions ;;
  output <-
    match output, p with
    | PNone, _ => ret output
    | _, None => ret output
    | PResult fields, Some c =>
        if testing trainer then
          let '(v, fields') := OrderedDict.pop fields "predictions" PNone in
          log (PredictionsAdd v) ;;;
          modify (set_predictions (Some (PredictionCollection.add c v))) ;;;
          ret (PResult fields')
        else ret output
    | _, Some _ => ret output
    end ;;
  log (TrackEvalLossHistory batch_idx_ dataloader_idx_ output) ;;;
  ret output.

Definition on_evaluation_batch_end (output batch : pyval)
  (batch_idx_ dataloader_idx_ : Z) : M pyval :=
  let args := [output; batch; PInt batch_idx_; PInt dataloader_idx_] in
  (if testing trainer then
     log (CallHook "on_test_batch_end" args) ;;;
     _ <- lift (call_hook trainer "on_test_batch_end" args) ;;
     ret tt
   else
     log (CallHook "on_validation_batch_end" args) ;;;
     _ <- lift (call_hook trainer "on_validation_batch_end" args) ;;
     ret tt) ;;;
  store_predictions output batch_idx_ dataloader_idx_.

Definition advance (dataloader_ : list pyval)
  (dl_max_batches_ dataloader_idx_ num_dataloaders_ : Z) : M unit :=
  p <- next_dataloader ;;
  let '(batch_idx_, batch) := p in
  modify (set_batch_idx (Some batch_idx_)) ;;;
  if is_None batch then raise StopIteration else
  on_evaluation_batch_start batch batch_idx_ dataloader_idx_ ;;;
  output <-
    profile "evaluation_step_and_end"
      (output <- evaluation_step batch batch_idx_ dataloader_idx_ ;;
       evaluation_step_end output) ;;
  output <- on_evaluation_batch_end output batch batch_idx_ dataloader_idx_ ;;
  log LogEvaluationStepMetrics ;;;
  log (TrackOutputForEpochEnd output) ;;;
  outputs_ <- gets outputs ;;
  modify (set_outputs (_track_output_for_epoch_end trainer outputs_ output)).

End Methods.

(** ** The run of the base class *)

Section Run.

Variable trainer : Trainer.

Definition bump_iteration_count (w : World) : World :=
  {| self := set_iteration_count (iteration_count (self w) + 1) (self w);
     calls := calls w |}.

(** Modelled from the spec: the base class [Loop]
    (pytorch_lightning.loops.base) and its [run] are not part of the
    sources.  The spec has the run repeat [advance] while [done] is false
    and the source is not exhausted, count the successful advances, and
    turn the termination signal of an exhausted source or a null batch
    into the normal end of the run; any other error goes to the caller.
    [None] is the model running out of [fuel], not a result of the
    program. *)
Fixpoint run_loop (fuel : nat) (dataloader_ : list pyval)
  (dl_max_batches_ dataloader_idx_ num_dataloaders_ : Z) (w : World)
  : option (res unit * World) :=
  match fuel with
  | O => None
  | S fuel' =>
      match done (self w) with
      | Raise e => Some (Raise e, w)
      | Ok true => Some (Ok tt, w)
      | Ok false =>
          match advance trainer dataloader_ dl_max_batches_
                  dataloader_idx_ num_dataloaders_ w with
          | (Ok _, w') =>
              run_loop fuel' dataloader_ dl_max_batches_ dataloader_idx_
                num_dataloaders_ (bump_iteration_count w')
          | (Raise StopIteration, w') => Some (Ok tt, w')
          | (Raise e, w') => Some (Raise e, w')
          end
      end
  end.

(** Modelled from the spec: [run] is [reset], [on_run_start], the loop
    above, and [on_run_end] for the result. *)
Definition run (fuel : nat) (dataloader_ : list pyval)
  (dl_max_batches_ dataloader_idx_ num_dataloaders_ : Z) (w : World)
  : option (res (list pyval) * World) :=
  let w0 :=
    {| self := on_run_start (reset trainer (self w)) dataloader_
                 dl_max_batches_ dataloader_idx_ num_dataloaders_;
       calls := calls w |} in
  match run_loop fuel dataloader_ dl_max_batches_ dataloader_idx_
          num_dataloaders_ w0 with
  | None => None
  | Some (Ok _, w') => Some (Ok (on_run_end (self w')), w')
  | Some (Raise e, w') => Some (Raise e, w')
  end.

(** [k] calls of [advance] in a row, each one after the other succeeded. *)
Fixpoint advances (k : nat) (dataloader_ : list pyval)
  (dl_max_batches_ dataloader_idx_ num_dataloaders_ : Z) : M unit :=
  match k with
  | O => ret tt
  | S k' =>
      advance trainer dataloader_ dl_max_batches_ dataloader_idx_
        num_dataloaders_ ;;;
      advances k' dataloader_ dl_max_batches_ dataloader_idx_
        num_dataloaders_
  end.

End Run.

(** ** What one batch asks of the host *)

Section Batch.

Variable trainer : Trainer.

(** The name of a hook or step function in the mode of the run. *)
Definition mode_name (test_name validation_name : string) : string :=
  if testing trainer then test_name else validation_name.

Definition accelerator_step : OrderedDict.t -> res pyval :=
  if testing trainer then accelerator_test_step trainer
  else accelerator_validation_step trainer.

Definition step_event (step_kwargs : OrderedDict.t) : Event :=
  if testing trainer then AcceleratorTestStep step_kwargs
  else AcceleratorValidationStep step_kwargs.

(** The mapping [_build_kwargs] returns when [num_dataloaders] is [n]. *)
Definition step_kwargs_for (n : Z) (batch : pyval) (i d : Z)
  : OrderedDict.t :=
  [("batch", batch); ("batch_idx", PInt i)]
    ++ (if 1 <? n then [("dataloader_idx", PInt d)] else []).

(** The host's answers for one batch: the step output and the output the
    step-end hook replaces it with, when no call raises. *)
Definition batch_output (n d i : Z) (batch : pyval) : res (pyval * pyval) :=
  match call_hook trainer
          (mode_name "on_test_batch_start" "on_validation_batch_start")
          [batch; PInt i; PInt d] with
  | Raise e => Raise e
  | Ok _ =>
      match accelerator_step (step_kwargs_for n batch i d) with
      | Raise e => Raise e
      | Ok o1 =>
          match call_hook trainer
                  (mode_name "test_step_end" "validation_step_end")
                  [o1] with
          | Raise e => Raise e
          | Ok o2 =>
              match call_hook trainer
                      (mode_name "on_test_batch_end"
                                 "on_validation_batch_end")
                      [o2; batch; PInt i; PInt d] with
              | Raise e => Raise e
              | Ok _ => Ok (o1, o2)
              end
          end
      end
  end.

(** The value [store_predictions] takes out of an output, if any. *)
Definition popped (p : option PredictionCollection.t) (output : pyval)
  : option pyval :=
  match output, p with
  | PResult fields, Some _ =>
      if testing trainer
      then Some (fst (OrderedDict.pop fields "predictions" PNone))
      else None
  | _, _ => None
  end.

(** The output as [advance] holds it after [store_predictions]. *)
Definition kept (p : option PredictionCollection.t) (output : pyval)
  : pyval :=
  match output, p with
  | PResult fields, Some _ =>
      if testing trainer
      then PResult (snd (OrderedDict.pop fields "predictions" PNone))
      else output
  | _, _ => output
  end.

Definition collect (p : option PredictionCollection.t) (output : pyval)
  : option PredictionCollection.t :=
  match p, popped p output with
  | Some c, Some v => Some (PredictionCollection.add c v)
  | _, _ => p
  end.

(** The calls of one successful [advance], in order. *)
Definition batch_calls (p : option PredictionCollection.t) (n d i : Z)
  (batch o1 o2 : pyval) : list Event :=
  [ LoggerOnEvaluationBatchStart batch d (Some n);
    CallHook (mode_name "on_test_batch_start" "on_validation_batch_start")
             [batch; PInt i; PInt d];
    ProfileEnter "evaluation_step_and_end";
    NewResults;
    SetCurrentFxName (mode_name "test_step" "validation_step");
    ProfileEnter (mode_name "test_step" "validation_step");
    step_event (step_kwargs_for n batch i d);
    ProfileExit (mode_name "test_step" "validation_step");
    CacheLoggedMetrics ]
  ++ (if is_Result o1 then [TrackBatchSize batch] else [])
  ++ [ CallHook (mode_name "test_step_end" "validation_step_end") [o1];
       ProfileExit "evaluation_step_and_end";
       CallHook (mode_name "on_test_batch_end" "on_validation_batch_end")
                [o2; batch; PInt i; PInt d];
       StorePredictions o2 i d ]
  ++ match popped p o2 with
     | Some v => [PredictionsAdd v]
     | None => []
     end
  ++ [ TrackEvalLossHistory i d (kept p o2);
       LogEvaluationStepMetrics;
       TrackOutputForEpochEnd (kept p o2) ].

(** The loop after one successful [advance] over [batch]. *)
Definition after_batch (l : EvaluationLoop) (i : Z) (rest : list pyval)
  (o2 : pyval) : EvaluationLoop :=
  {| iteration_count := iteration_count l;
     predictions := collect (predictions l) o2;
     dataloader := Some {| enum_next := i + 1; enum_rest := rest |};
     dl_max_batches := dl_max_batches l;
     dataloader_idx := dataloader_idx l;
     num_dataloaders := num_dataloaders l;
     batch_idx := Some i;
     outputs :=
       _track_output_for_epoch_end trainer (outputs l)
         (kept (predictions l) o2) |}.

End Batch.

(** ** Several batches in a row *)

Section Batches.

Variable trainer : Trainer.

(** The host's answers for the batches [bs], the first of which has index
    [i]: defined when no batch is null and no call raises. *)
Fixpoint batch_outputs (n d i : Z) (bs : list pyval)
  : option (list (pyval * pyval)) :=
  match bs with
  | [] => Some []
  | batch :: bs' =>
      if is_None batch then None
      else
        match batch_output trainer n d i batch,
              batch_outputs n d (i + 1) bs' with
        | Ok o, Some os => Some (o :: os)
        | _, _ => None
        end
  end.

(** The loop after successful calls of [advance] over [bs], one per
    batch. *)
Fixpoint after_batches (l : EvaluationLoop) (i : Z) (bs rest : list pyval)
  (os : list (pyval * pyval)) : EvaluationLoop :=
  match bs, os with
  | _ :: bs', (_, o2) :: os' =>
      after_batches (after_batch trainer l i (bs' ++ rest) o2) (i + 1)
        bs' rest os'
  | _, _ => l
  end.

(** The calls of those advances. *)
Fixpoint batches_calls (l : EvaluationLoop) (n d i : Z) (bs rest : list pyval)
  (os : list (pyval * pyval)) : list Event :=
  match bs, os with
  | batch :: bs', (o1, o2) :: os' =>
      batch_calls trainer (predictions l) n d i batch o1 o2
      ++ batches_calls (after_batch trainer l i (bs' ++ rest) o2) n d (i + 1)
           bs' rest os'
  | _, _ => []
  end.

(** What a [Result] output gives to the prediction collection. *)
Definition result_predictions (output : pyval) : list pyval :=
  match output with
  | PResult fields =>
      PredictionCollection.values
        (fst (OrderedDict.pop fields "predictions" PNone))
  | _ => []
  end.

(** A [Result] output without its [predictions] key; any other output as it
    is. *)
Definition without_predictions (output : pyval) : pyval :=
  match output with
  | PResult fields =>
      PResult (snd (OrderedDict.pop fields "predictions" PNone))
  | _ => output
  end.

End Batches.

(** The value under a key of a dict-like output, [None] when there is
    none. *)
Definition get_field (output : pyval) (k : string) : pyval :=
  match output with
  | PDict fields | PResult fields => fst (OrderedDict.pop fields k PNone)
  | _ => PNone
  end.

(** ** The per-batch calls the spec names *)

Definition phase (e : Event) : option string :=
  match e with
  | CallHook name _ => Some name
  | AcceleratorTestStep _ => Some "test_step"
  | AcceleratorValidationStep _ => Some "validation_step"
  | StorePredictions _ _ _ => Some "store_predictions"
  | _ => None
  end.

Fixpoint phases (l : list Event) : list string :=
  match l with
  | [] => []
  | e :: r =>
      match phase e with
      | Some s => s :: phases r
      | None => phases r
      end
  end.

(** ** Reachable states *)

(** The worlds a host can bring a connected loop to with the methods of the
    loop, whatever their outcome, and with the iteration counter of the base
    class. *)
Inductive reachable (trainer : Trainer) : World -> Prop :=
| reachable_init : reachable trainer {| self := init; calls := [] |}
| reachable_reset w :
    reachable trainer w ->
    reachable trainer {| self := reset trainer (self w); calls := calls w |}
| reachable_on_run_start w dl dl_max d nd :
    reachable trainer w ->
    reachable trainer
      {| self := on_run_start (self w) dl dl_max d nd; calls := calls w |}
| reachable_advance w dl dl_max d nd r w' :
    reachable trainer w ->
    advance trainer dl dl_max d nd w = (r, w') ->
    reachable trainer w'
| reachable_count w :
    reachable trainer w ->
    reachable trainer (bump_iteration_count w).

(** The cursor and the batch index agree once a batch was pulled. *)
Definition cursor_inv (l : EvaluationLoop) : Prop :=
  match dataloader l with
  | None => True
  | Some e =>
      enum_next e = 0 \/ batch_idx l = Some (enum_next e - 1)
  end.

(** The fields no method called by [advance] after the pull assigns. *)
Definition same_cursor (l l' : EvaluationLoop) : Prop :=
  dataloader l' = dataloader l /\ batch_idx l' = batch_idx l.

Definition keeps_cursor {A} (m : M A) : Prop :=
  forall w r w', m w = (r, w') -> same_cursor (self w) (self w').

(** ** Lemmas on single calls *)

Lemma app_cons_assoc {A} (l : list A) (x : A) (r : list A) :
  (l ++ [x]) ++ r = l ++ x :: r.
Proof. now rewrite <- app_assoc. Qed.

Lemma skipn_length_app {A} (l r : list A) :
  skipn (List.length l) (l ++ r) = r.
Proof. induction l as [|a l IH]; simpl; auto. Qed.

Ltac flatten_calls :=
  repeat (progress (repeat rewrite <- app_assoc; simpl)).

Section SingleCalls.

Variable trainer : Trainer.

Lemma build_kwargs_eq (w : World) (n : Z) (batch : pyval) (i d : Z) :
  num_dataloaders (self w) = Some n ->
  _build_kwargs trainer batch i d w
  = (Ok (step_kwargs_for n batch i d), w).
Proof.
  intros Hn. unfold _build_kwargs, num_dataloaders_gt_1, bind, gets, ret,
    raise, step_kwargs_for.
  destruct (testing trainer); simpl; rewrite Hn; simpl;
    destruct (1 <? n); reflexivity.
Qed.

Lemma on_evaluation_batch_start_eq (w : World) (batch v : pyval) (i d : Z) :
  call_hook trainer
    (mode_name trainer "on_test_batch_start" "on_validation_batch_start")
    [batch; PInt i; PInt d] = Ok v ->
  on_evaluation_batch_start trainer batch i d w
  = (Ok tt,
     {| self := self w;
        calls := calls w
          ++ [ LoggerOnEvaluationBatchStart batch d
                 (num_dataloaders (self w));
               CallHook
                 (mode_name trainer "on_test_batch_start"
                    "on_validation_batch_start")
                 [batch; PInt i; PInt d] ] |}).
Proof.
  unfold on_evaluation_batch_start, mode_name, bind, gets, log, lift, ret.
  destruct (testing trainer); simpl; intros ->; flatten_calls; reflexivity.
Qed.

Lemma evaluation_step_eq (w : World) (n : Z) (batch o1 : pyval) (i d : Z) :
  num_dataloaders (self w) = Some n ->
  accelerator_step trainer (step_kwargs_for n batch i d) = Ok o1 ->
  evaluation_step trainer batch i d w
  = (Ok o1,
     {| self := self w;
        calls := calls w
          ++ [ NewResults;
               SetCurrentFxName (mode_name trainer "test_step" "validation_step");
               ProfileEnter (mode_name trainer "test_step" "validation_step");
               step_event trainer (step_kwargs_for n batch i d);
               ProfileExit (mode_name trainer "test_step" "validation_step");
               CacheLoggedMetrics ]
          ++ (if is_Result o1 then [TrackBatchSize batch] else []) |}).
Proof.
  intros Hn Hstep. unfold evaluation_step. unfold bind at 1.
  rewrite (build_kwargs_eq w n batch i d Hn).
  unfold accelerator_step, mode_name, step_event in *.
  unfold profile, bind, log, lift, ret.
  destruct (testing trainer); simpl; rewrite Hstep; simpl;
    destruct (is_Result o1); simpl; flatten_calls; reflexivity.
Qed.

Lemma evaluation_step_end_eq (w : World) (o1 o2 : pyval) :
  call_hook trainer (mode_name trainer "test_step_end" "validation_step_end")
    [o1] = Ok o2 ->
  evaluation_step_end trainer o1 w
  = (Ok o2,
     {| self := self w;
        calls := calls w
          ++ [ CallHook
                 (mode_name trainer "test_step_end" "validation_step_end")
                 [o1] ] |}).
Proof.
  unfold evaluation_step_end, mode_name, bind, log, lift.
  destruct (testing trainer); simpl; intros ->; reflexivity.
Qed.

Lemma store_predictions_eq (w : World) (output : pyval) (i d : Z) :
  store_predictions trainer output i d w
  = (Ok (kept trainer (predictions (self w)) output),
     {| self :=
          set_predictions (collect trainer (predictions (self w)) output)
            (self w);
        calls := calls w
          ++ [StorePredictions output i d]
          ++ match popped trainer (predictions (self w)) output with
             | Some v => [PredictionsAdd v]
             | None => []
             end
          ++ [TrackEvalLossHistory i d
                (kept trainer (predictions (self w)) output)] |}).
Proof.
  destruct w as [l cs]. destruct l as [ic p dl mb di nd bi outs].
  unfold store_predictions, kept, collect, popped, set_predictions, bind,
    gets, modify, log, ret. simpl.
  destruct output; destruct p as [c|]; simpl;
    try (flatten_calls; reflexivity).
  destruct (testing trainer); simpl; [|flatten_calls; reflexivity].
  destruct (OrderedDict.pop fields "predictions" PNone) as [v fields'].
  simpl. flatten_calls. reflexivity.
Qed.

Lemma on_evaluation_batch_end_eq (w : World) (output batch v : pyval)
  (i d : Z) :
  call_hook trainer
    (mode_name trainer "on_test_batch_end" "on_validation_batch_end")
    [output; batch; PInt i; PInt d] = Ok v ->
  on_evaluation_batch_end trainer output batch i d w
  = (Ok (kept trainer (predictions (self w)) output),
     {| self :=
          set_predictions (collect trainer (predictions (self w)) output)
            (self w);
        calls := calls w
          ++ [ CallHook
                 (mode_name trainer "on_test_batch_end"
                    "on_validation_batch_end")
                 [output; batch; PInt i; PInt d];
               StorePredictions output i d ]
          ++ match popped trainer (predictions (self w)) output with
             | Some v => [PredictionsAdd v]
             | None => []
             end
          ++ [TrackEvalLossHistory i d
                (kept trainer (predictions (self w)) output)] |}).
Proof.
  intros H. unfold on_evaluation_batch_end. unfold bind at 1.
  unfold mode_name in *.
  destruct (testing trainer); unfold bind, log, lift, ret; simpl;
    rewrite H; simpl; rewrite store_predictions_eq; simpl;
    flatten_calls; reflexivity.
Qed.

Lemma batch_output_inv (n d i : Z) (batch o1 o2 : pyval) :
  batch_output trainer n d i batch = Ok (o1, o2) ->
  (exists v,
      call_hook trainer
        (mode_name trainer "on_test_batch_start" "on_validation_batch_start")
        [batch; PInt i; PInt d] = Ok v)
  /\ accelerator_step trainer (step_kwargs_for n batch i d) = Ok o1
  /\ call_hook trainer
       (mode_name trainer "test_step_end" "validation_step_end") [o1]
     = Ok o2
  /\ (exists v,
        call_hook trainer
          (mode_name trainer "on_test_batch_end" "on_validation_batch_end")
          [o2; batch; PInt i; PInt d] = Ok v).
Proof.
  unfold batch_output. intros H.
  destruct (call_hook trainer _ [batch; PInt i; PInt d]) as [v1|] eqn:H1;
    [|discriminate].
  destruct (accelerator_step trainer _) as [x1|] eqn:H2; [|discriminate].
  destruct (call_hook trainer _ [x1]) as [x2|] eqn:H3; [|discriminate].
  destruct (call_hook trainer _ [x2; _; _; _]) as [v4|] eqn:H4;
    [|discriminate].
  injection H as <- <-. repeat split; eauto.
Qed.

Lemma advance_no_iterator (w : World) (dl : list pyval) (dl_max d nd : Z) :
  dataloader (self w) = None ->
  advance trainer dl dl_max d nd w = (Raise TypeError, w).
Proof.
  intros H. unfold advance, bind, next_dataloader. rewrite H. reflexivity.
Qed.

Lemma advance_exhausted (w : World) (i : Z) (dl : list pyval)
  (dl_max d nd : Z) :
  dataloader (self w) = Some {| enum_next := i; enum_rest := [] |} ->
  advance trainer dl dl_max d nd w = (Raise StopIteration, w).
Proof.
  intros H. unfold advance, bind, next_dataloader. rewrite H. reflexivity.
Qed.

Lemma advance_null_batch (w : World) (i : Z) (batch : pyval)
  (rest dl : list pyval) (dl_max d nd : Z) :
  dataloader (self w)
  = Some {| enum_next := i; enum_rest := batch :: rest |} ->
  is_None batch = true ->
  advance trainer dl dl_max d nd w
  = (Raise StopIteration,
     {| self :=
          set_batch_idx (Some i)
            (set_dataloader
               (Some {| enum_next := i + 1; enum_rest := rest |}) (self w));
        calls := calls w |}).
Proof.
  intros H Hb. unfold advance, bind, next_dataloader, modify, raise.
  rewrite H. simpl. rewrite Hb. reflexivity.
Qed.

Lemma advance_ok (w : World) (i : Z) (batch : pyval) (rest : list pyval)
  (n dl_max d nd : Z) (dl : list pyval) (o1 o2 : pyval) :
  dataloader (self w)
  = Some {| enum_next := i; enum_rest := batch :: rest |} ->
  is_None batch = false ->
  num_dataloaders (self w) = Some n ->
  batch_output trainer n d i batch = Ok (o1, o2) ->
  advance trainer dl dl_max d nd w
  = (Ok tt,
     {| self := after_batch trainer (self w) i rest o2;
        calls := calls w
                 ++ batch_calls trainer (predictions (self w)) n d i
                      batch o1 o2 |}).
Proof.
  intros Hdl Hb Hn Hout.
  apply batch_output_inv in Hout as ([v1 H1] & H2 & H3 & [v4 H4]).
  destruct w as [l cs]. destruct l as [ic p e mb di ndl bi outs].
  simpl in Hdl, Hn. subst e ndl.
  unfold advance. unfold bind at 1. unfold next_dataloader. simpl.
  unfold bind at 1. unfold modify at 1. simpl. rewrite Hb.
  unfold bind at 1. rewrite (on_evaluation_batch_start_eq _ _ v1 _ _ H1).
  unfold bind at 1. unfold profile. unfold bind at 1. unfold log at 1.
  unfold bind at 1.
  rewrite (evaluation_step_eq _ n _ o1) by (simpl; trivial).
  rewrite (evaluation_step_end_eq _ _ o2 H3).
  unfold bind at 1. rewrite (on_evaluation_batch_end_eq _ _ _ v4 _ _ H4).
  unfold bind, log, gets, modify, after_batch, batch_calls, set_outputs,
    set_predictions. simpl.
  flatten_calls. reflexivity.
Qed.

Lemma bind_Ok_inv {A B} (m : M A) (k : A -> M B) (w w' : World) (b : B) :
  bind m k w = (Ok b, w') ->
  exists a w1, m w = (Ok a, w1) /\ k a w1 = (Ok b, w').
Proof.
  unfold bind. destruct (m w) as [[a|e] w1]; [eauto | discriminate].
Qed.

Lemma on_evaluation_batch_start_Ok (w w' : World) (batch : pyval) (i d : Z)
  (u : unit) :
  on_evaluation_batch_start trainer batch i d w = (Ok u, w') ->
  exists v,
    call_hook trainer
      (mode_name trainer "on_test_batch_start" "on_validation_batch_start")
      [batch; PInt i; PInt d] = Ok v.
Proof.
  unfold on_evaluation_batch_start, mode_name, bind, gets, log, lift, ret.
  destruct (testing trainer); simpl;
    destruct (call_hook trainer _ _); (discriminate || eauto).
Qed.

Lemma evaluation_step_Ok (w w' : World) (batch o1 : pyval) (i d : Z) :
  evaluation_step trainer batch i d w = (Ok o1, w') ->
  exists n,
    num_dataloaders (self w) = Some n
    /\ accelerator_step trainer (step_kwargs_for n batch i d) = Ok o1.
Proof.
  destruct (num_dataloaders (self w)) as [n|] eqn:Hn.
  - intros H. exists n. split; [reflexivity|].
    unfold evaluation_step in H. unfold bind at 1 in H.
    rewrite (build_kwargs_eq w n batch i d Hn) in H.
    unfold accelerator_step. unfold profile, bind, log, lift, ret in H.
    destruct (testing trainer); simpl in H;
      match type of H with
      | context [match ?c with Ok _ => _ | Raise _ => _ end] =>
          destruct c as [x|e] eqn:Hc
      end; simpl in H; try discriminate;
      destruct (is_Result x); simpl in H; congruence.
  - unfold evaluation_step, _build_kwargs, num_dataloaders_gt_1, bind, gets,
      ret, raise.
    destruct (testing trainer); simpl; rewrite Hn; discriminate.
Qed.

Lemma evaluation_step_end_Ok (w w' : World) (o1 o2 : pyval) :
  evaluation_step_end trainer o1 w = (Ok o2, w') ->
  call_hook trainer (mode_name trainer "test_step_end" "validation_step_end")
    [o1] = Ok o2.
Proof.
  unfold evaluation_step_end, mode_name, bind, log, lift.
  destruct (testing trainer); simpl; congruence.
Qed.

Lemma on_evaluation_batch_end_Ok (w w' : World) (output batch o : pyval)
  (i d : Z) :
  on_evaluation_batch_end trainer output batch i d w = (Ok o, w') ->
  exists v,
    call_hook trainer
      (mode_name trainer "on_test_batch_end" "on_validation_batch_end")
      [output; batch; PInt i; PInt d] = Ok v.
Proof.
  unfold on_evaluation_batch_end, mode_name. intros H.
  apply bind_Ok_inv in H as (a & w1 & H & _).
  unfold bind, log, lift, ret in H.
  destruct (testing trainer); simpl in H;
    destruct (call_hook trainer _ _); (discriminate || eauto).
Qed.

Lemma profile_Ok_inv {A} (name : string) (body : M A) (w w' : World) (a : A) :
  profile name body w = (Ok a, w') ->
  exists w1,
    body {| self := self w; calls := calls w ++ [ProfileEnter name] |}
    = (Ok a, w1).
Proof.
  unfold profile, bind, log.
  destruct (body _) as [[x|e] w1]; intros H; [|discriminate].
  injection H as <- _. eauto.
Qed.

Lemma batch_output_intro (n d i : Z) (batch o1 o2 v1 v4 : pyval) :
  call_hook trainer
    (mode_name trainer "on_test_batch_start" "on_validation_batch_start")
    [batch; PInt i; PInt d] = Ok v1 ->
  accelerator_step trainer (step_kwargs_for n batch i d) = Ok o1 ->
  call_hook trainer (mode_name trainer "test_step_end" "validation_step_end")
    [o1] = Ok o2 ->
  call_hook trainer
    (mode_name trainer "on_test_batch_end" "on_validation_batch_end")
    [o2; batch; PInt i; PInt d] = Ok v4 ->
  batch_output trainer n d i batch = Ok (o1, o2).
Proof.
  intros H1 H2 H3 H4. unfold batch_output. now rewrite H1, H2, H3, H4.
Qed.

(** A successful [advance] pulled a non-null batch and every host call on it
    returned. *)
Lemma advance_Ok_inv (w w' : World) (dl : list pyval) (dl_max d nd : Z)
  (u : unit) :
  advance trainer dl dl_max d nd w = (Ok u, w') ->
  exists i batch rest n o1 o2,
    dataloader (self w)
    = Some {| enum_next := i; enum_rest := batch :: rest |}
    /\ is_None batch = false
    /\ num_dataloaders (self w) = Some n
    /\ batch_output trainer n d i batch = Ok (o1, o2).
Proof.
  intros H.
  destruct (dataloader (self w)) as [[i [|batch rest]]|] eqn:Hdl.
  - rewrite (advance_exhausted w i) in H by assumption. discriminate.
  - destruct (is_None batch) eqn:Hb.
    + rewrite (advance_null_batch w i batch rest) in H by assumption.
      discriminate.
    + exists i, batch, rest.
      unfold advance in H. unfold bind at 1 in H.
      unfold next_dataloader in H. rewrite Hdl in H. simpl in H.
      unfold bind at 1 in H. unfold modify at 1 in H. rewrite Hb in H.
      apply bind_Ok_inv in H as (u1 & w1 & Hs & H).
      pose proof (on_evaluation_batch_start_Ok _ _ _ _ _ _ Hs) as [v1 H1].
      rewrite (on_evaluation_batch_start_eq _ _ v1 _ _ H1) in Hs.
      injection Hs as _ <-.
      apply bind_Ok_inv in H as (o2 & w2 & Hp & H).
      apply profile_Ok_inv in Hp as (w3 & Hp).
      apply bind_Ok_inv in Hp as (o1 & w4 & Hst & Hse).
      apply evaluation_step_Ok in Hst as (n & Hn & H2).
      apply evaluation_step_end_Ok in Hse.
      apply bind_Ok_inv in H as (o3 & w5 & He & _).
      apply on_evaluation_batch_end_Ok in He as [v4 H4].
      exists n, o1, o2. simpl in Hn.
      repeat split; trivial.
      eapply batch_output_intro; eauto.
  - rewrite advance_no_iterator in H by assumption. discriminate.
Qed.

End SingleCalls.

(** ** The cursor under [advance] *)

Lemma same_cursor_refl (l : EvaluationLoop) : same_cursor l l.
Proof. split; reflexivity. Qed.

Lemma same_cursor_trans (l1 l2 l3 : EvaluationLoop) :
  same_cursor l1 l2 -> same_cursor l2 l3 -> same_cursor l1 l3.
Proof. intros [H1 H2] [H3 H4]. split; congruence. Qed.

Lemma keeps_cursor_ret {A} (a : A) : keeps_cursor (ret a).
Proof. intros w r w' H. injection H as _ <-. apply same_cursor_refl. Qed.

Lemma keeps_cursor_raise {A} (e : exn) : keeps_cursor (@raise A e).
Proof. intros w r w' H. injection H as _ <-. apply same_cursor_refl. Qed.

Lemma keeps_cursor_lift {A} (x : res A) : keeps_cursor (lift x).
Proof. intros w r w' H. injection H as _ <-. apply same_cursor_refl. Qed.

Lemma keeps_cursor_gets {A} (f : EvaluationLoop -> A) : keeps_cursor (gets f).
Proof. intros w r w' H. injection H as _ <-. apply same_cursor_refl. Qed.

Lemma keeps_cursor_log (e : Event) : keeps_cursor (log e).
Proof. intros w r w' H. injection H as _ <-. apply same_cursor_refl. Qed.

Lemma keeps_cursor_set_predictions (p : option PredictionCollection.t) :
  keeps_cursor (modify (set_predictions p)).
Proof. intros w r w' H. injection H as _ <-. split; reflexivity. Qed.

Lemma keeps_cursor_set_outputs (o : list pyval) :
  keeps_cursor (modify (set_outputs o)).
Proof. intros w r w' H. injection H as _ <-. split; reflexivity. Qed.

Lemma keeps_cursor_bind {A B} (m : M A) (k : A -> M B) :
  keeps_cursor m -> (forall a, keeps_cursor (k a)) -> keeps_cursor (bind m k).
Proof.
  intros Hm Hk w r w' H. unfold bind in H.
  destruct (m w) as [[a|e] w1] eqn:Hmw.
  - eapply same_cursor_trans; [eapply Hm | eapply Hk]; eassumption.
  - injection H as _ <-. eapply Hm; eassumption.
Qed.

Lemma keeps_cursor_profile {A} (name : string) (body : M A) :
  keeps_cursor body -> keeps_cursor (profile name body).
Proof.
  intros Hb w r w' H. unfold profile in H.
  destruct ((log (ProfileEnter name) ;;; body) w) as [r1 w1] eqn:H1.
  injection H as _ <-. simpl.
  eapply (keeps_cursor_bind (log (ProfileEnter name)) (fun _ => body));
    eauto using keeps_cursor_log.
Qed.

Lemma keeps_cursor_if {A} (b : bool) (m1 m2 : M A) :
  keeps_cursor m1 -> keeps_cursor m2 -> keeps_cursor (if b then m1 else m2).
Proof. destruct b; trivial. Qed.

Create HintDb cursor.
#[local] Hint Resolve keeps_cursor_ret keeps_cursor_raise keeps_cursor_lift
  keeps_cursor_gets keeps_cursor_log keeps_cursor_set_predictions
  keeps_cursor_set_outputs keeps_cursor_profile keeps_cursor_if : cursor.

Ltac keeps :=
  repeat first
    [ apply keeps_cursor_bind; [|intros ?]
    | apply keeps_cursor_if
    | apply keeps_cursor_profile
    | solve [auto with cursor] ].

Section Cursor.

Variable trainer : Trainer.

Lemma keeps_cursor_build_kwargs (batch : pyval) (i d : Z) :
  keeps_cursor (_build_kwargs trainer batch i d).
Proof.
  unfold _build_kwargs, num_dataloaders_gt_1. keeps.
  all: match goal with |- keeps_cursor (match ?x with _ => _ end) =>
         destruct x end; keeps.
Qed.

Lemma keeps_cursor_evaluation_step (batch : pyval) (i d : Z) :
  keeps_cursor (evaluation_step trainer batch i d).
Proof.
  unfold evaluation_step.
  apply keeps_cursor_bind; [apply keeps_cursor_build_kwargs|intros kw].
  keeps.
Qed.

Lemma keeps_cursor_evaluation_step_end (output : pyval) :
  keeps_cursor (evaluation_step_end trainer output).
Proof. unfold evaluation_step_end. keeps. Qed.

Lemma keeps_cursor_on_evaluation_batch_start (batch : pyval) (i d : Z) :
  keeps_cursor (on_evaluation_batch_start trainer batch i d).
Proof. unfold on_evaluation_batch_start. keeps. Qed.

Lemma keeps_cursor_store_predictions (output : pyval) (i d : Z) :
  keeps_cursor (store_predictions trainer output i d).
Proof.
  unfold store_predictions. keeps.
  destruct output, a0; keeps.
  destruct (OrderedDict.pop fields "predictions" PNone). keeps.
Qed.

Lemma keeps_cursor_on_evaluation_batch_end (output batch : pyval) (i d : Z) :
  keeps_cursor (on_evaluation_batch_end trainer output batch i d).
Proof.
  unfold on_evaluation_batch_end.
  apply keeps_cursor_bind; [keeps|intros _].
  apply keeps_cursor_store_predictions.
Qed.

(** Whatever its outcome, [advance] either leaves cursor and batch index as
    they are or moves the cursor by one and records the index it pulled. *)
Lemma advance_cursor (w w' : World) (dl : list pyval) (dl_max d nd : Z)
  (r : res unit) :
  advance trainer dl dl_max d nd w = (r, w') ->
  same_cursor (self w) (self w')
  \/ exists e batch rest,
       dataloader (self w) = Some e
       /\ enum_rest e = batch :: rest
       /\ dataloader (self w')
          = Some {| enum_next := enum_next e + 1; enum_rest := rest |}
       /\ batch_idx (self w') = Some (enum_next e).
Proof.
  intros H. unfold advance in H. unfold bind at 1 in H.
  unfold next_dataloader in H.
  destruct (dataloader (self w)) as [e|] eqn:Hdl.
  2:{ injection H as _ <-. left. apply same_cursor_refl. }
  destruct (enum_rest e) as [|batch rest] eqn:Hrest.
  { injection H as _ <-. left. apply same_cursor_refl. }
  right. exists e, batch, rest. repeat split; trivial.
  all: unfold bind at 1 in H; unfold modify at 1 in H.
  all: match type of H with
       | ?m ?w0 = _ =>
           assert (Hk : keeps_cursor m);
           [ |apply Hk in H; destruct H as [H1 H2]; simpl in H1, H2;
              congruence]
       end.
  all: apply keeps_cursor_if; [apply keeps_cursor_raise|].
  all: apply keeps_cursor_bind;
    [apply keeps_cursor_on_evaluation_batch_start|intros _].
  all: apply keeps_cursor_bind;
    [apply keeps_cursor_profile; apply keeps_cursor_bind;
     [apply keeps_cursor_evaluation_step
     |intros ?; apply keeps_cursor_evaluation_step_end]|intros ?].
  all: apply keeps_cursor_bind;
    [apply keeps_cursor_on_evaluation_batch_end|intros ?].
  all: keeps.
Qed.

Lemma reachable_cursor_inv (w : World) :
  reachable trainer w -> cursor_inv (self w).
Proof.
  induction 1 as [|w Hw IH|w dl dl_max d nd Hw IH|w dl dl_max d nd r w' Hw IH Ha
                  |w Hw IH]; unfold cursor_inv in *; simpl; auto.
  - apply advance_cursor in Ha as [[H1 H2]|(e & batch & rest & H1 & _ & H2 & H3)].
    + rewrite H1, H2. exact IH.
    + rewrite H2, H3. simpl. right. f_equal. lia.
Qed.

End Cursor.

(** ** Several advances *)

Lemma phases_app (l r : list Event) : phases (l ++ r) = phases l ++ phases r.
Proof.
  induction l as [|e l IH]; simpl; [reflexivity|].
  destruct (phase e); simpl; now rewrite IH.
Qed.

Lemma world_eta (w : World) :
  {| self := self w; calls := calls w ++ [] |} = w.
Proof. destruct w. simpl. now rewrite app_nil_r. Qed.

Section Advances.

Variable trainer : Trainer.

Lemma phases_batch_calls (p : option PredictionCollection.t) (n d i : Z)
  (batch o1 o2 : pyval) :
  phases (batch_calls trainer p n d i batch o1 o2)
  = if testing trainer
    then [ "on_test_batch_start"; "test_step"; "test_step_end";
           "on_test_batch_end"; "store_predictions" ]
    else [ "on_validation_batch_start"; "validation_step";
           "validation_step_end"; "on_validation_batch_end";
           "store_predictions" ].
Proof.
  unfold batch_calls, mode_name, step_event.
  destruct (testing trainer); simpl;
    destruct (is_Result o1); simpl;
    destruct (popped trainer p o2); reflexivity.
Qed.

Lemma batch_outputs_length (n d : Z) (bs : list pyval) :
  forall i os,
    batch_outputs trainer n d i bs = Some os ->
    List.length os = List.length bs.
Proof.
  induction bs as [|b bs IH]; simpl; intros i os H.
  - injection H as <-. reflexivity.
  - destruct (is_None b); [discriminate|].
    destruct (batch_output trainer n d i b); [|discriminate].
    destruct (batch_outputs trainer n d (i + 1) bs) eqn:E; [|discriminate].
    injection H as <-. simpl. f_equal. eauto.
Qed.

Lemma batch_outputs_cons (n d i : Z) (b : pyval) (bs : list pyval)
  (os : list (pyval * pyval)) :
  batch_outputs trainer n d i (b :: bs) = Some os ->
  exists o1 o2 os',
    os = (o1, o2) :: os'
    /\ is_None b = false
    /\ batch_output trainer n d i b = Ok (o1, o2)
    /\ batch_outputs trainer n d (i + 1) bs = Some os'.
Proof.
  simpl. destruct (is_None b); [discriminate|].
  destruct (batch_output trainer n d i b) as [[o1 o2]|]; [|discriminate].
  destruct (batch_outputs trainer n d (i + 1) bs) as [os'|]; [|discriminate].
  intros H. injection H as <-. exists o1, o2, os'. auto.
Qed.

Lemma advances_ok (dl : list pyval) (dl_max d nd n : Z) (rest bs : list pyval) :
  forall (w : World) (i : Z) (os : list (pyval * pyval)),
    dataloader (self w) = Some {| enum_next := i; enum_rest := bs ++ rest |} ->
    num_dataloaders (self w) = Some n ->
    batch_outputs trainer n d i bs = Some os ->
    advances trainer (List.length bs) dl dl_max d nd w
    = (Ok tt,
       {| self := after_batches trainer (self w) i bs rest os;
          calls := calls w
                   ++ batches_calls trainer (self w) n d i bs rest os |}).
Proof.
  induction bs as [|b bs IH]; intros w i os Hdl Hn Hos.
  - simpl. unfold ret. now rewrite world_eta.
  - apply batch_outputs_cons in Hos
      as (o1 & o2 & os' & -> & Hb & Hout & Hos').
    cbn [List.length advances]. unfold bind.
    rewrite (advance_ok trainer w i b (bs ++ rest) n dl_max d nd dl o1 o2)
      by assumption.
    rewrite (IH _ (i + 1) os') by (unfold after_batch; simpl; trivial).
    simpl. now rewrite <- app_assoc.
Qed.

Lemma after_batches_frame (bs rest : list pyval) :
  forall (l : EvaluationLoop) (i : Z) (os : list (pyval * pyval)),
    iteration_count (after_batches trainer l i bs rest os) = iteration_count l
    /\ dl_max_batches (after_batches trainer l i bs rest os) = dl_max_batches l
    /\ dataloader_idx (after_batches trainer l i bs rest os) = dataloader_idx l
    /\ num_dataloaders (after_batches trainer l i bs rest os)
       = num_dataloaders l.
Proof.
  induction bs as [|b bs IH]; intros l i os; [simpl; auto|].
  destruct os as [|[o1 o2] os]; [simpl; auto|].
  simpl. destruct (IH (after_batch trainer l i (bs ++ rest) o2) (i + 1) os)
    as (H1 & H2 & H3 & H4).
  rewrite H1, H2, H3, H4. simpl. auto.
Qed.

Lemma after_batches_cursor (bs rest : list pyval) :
  forall (l : EvaluationLoop) (i : Z) (os : list (pyval * pyval)),
    List.length os = List.length bs ->
    bs <> [] ->
    dataloader (after_batches trainer l i bs rest os)
    = Some {| enum_next := i + Z.of_nat (List.length bs); enum_rest := rest |}
    /\ batch_idx (after_batches trainer l i bs rest os)
       = Some (i + Z.of_nat (List.length bs) - 1).
Proof.
  induction bs as [|b bs IH]; intros l i os Hlen Hne; [congruence|].
  destruct os as [|[o1 o2] os]; [discriminate|].
  cbn [after_batches]. destruct bs as [|b' bs].
  - destruct os; [|discriminate]. simpl. split; do 2 f_equal; lia.
  - destruct (IH (after_batch trainer l i ((b' :: bs) ++ rest) o2) (i + 1) os)
      as [H1 H2]; [simpl in *; lia|discriminate|].
    rewrite H1, H2. cbn [List.length].
    split; do 2 f_equal; lia.
Qed.

Lemma after_batches_predictions (bs rest : list pyval) :
  forall (l : EvaluationLoop) (i : Z) (os : list (pyval * pyval))
         (c : PredictionCollection.t),
    List.length os = List.length bs ->
    predictions l = Some c ->
    predictions (after_batches trainer l i bs rest os)
    = Some {| PredictionCollection.global_rank :=
                PredictionCollection.global_rank c;
              PredictionCollection.world_size :=
                PredictionCollection.world_size c;
              PredictionCollection.items :=
                PredictionCollection.items c
                ++ (if testing trainer
                    then flat_map (fun o => result_predictions (snd o)) os
                    else []) |}.
Proof.
  induction bs as [|b bs IH]; intros l i os c Hlen Hp.
  - destruct os; [|discriminate]. simpl. rewrite Hp. destruct c. simpl.
    destruct (testing trainer); now rewrite app_nil_r.
  - destruct os as [|[o1 o2] os]; [discriminate|].
    cbn [after_batches].
    assert (Hc : exists c',
               predictions (after_batch trainer l i (bs ++ rest) o2) = Some c'
               /\ PredictionCollection.global_rank c'
                  = PredictionCollection.global_rank c
               /\ PredictionCollection.world_size c'
                  = PredictionCollection.world_size c
               /\ PredictionCollection.items c'
                  = PredictionCollection.items c
                    ++ (if testing trainer then result_predictions o2
                        else [])).
    { unfold after_batch, collect, popped, result_predictions. simpl.
      rewrite Hp.
      destruct o2, (testing trainer); simpl;
        try (exists c; rewrite ?app_nil_r; repeat split; reflexivity).
      eexists. split; [reflexivity|]. simpl. repeat split; reflexivity. }
    destruct Hc as (c' & Hp' & Hr & Hs & Hi).
    rewrite (IH _ (i + 1) os c') by (simpl in *; (lia || assumption)).
    rewrite Hr, Hs, Hi. f_equal. f_equal. simpl.
    destruct (testing trainer); now rewrite <- ?app_assoc, ?app_nil_r.
Qed.

Lemma after_batches_outputs (bs rest : list pyval) :
  forall (l : EvaluationLoop) (i : Z) (os : list (pyval * pyval))
         (c : PredictionCollection.t),
    List.length os = List.length bs ->
    predictions l = Some c ->
    outputs (after_batches trainer l i bs rest os)
    = fold_left (_track_output_for_epoch_end trainer)
        (map (fun o => if testing trainer then without_predictions (snd o)
                       else snd o) os)
        (outputs l).
Proof.
  induction bs as [|b bs IH]; intros l i os c Hlen Hp.
  - destruct os; [|discriminate]. reflexivity.
  - destruct os as [|[o1 o2] os]; [discriminate|].
    cbn [after_batches].
    assert (Hc : exists c',
               predictions (after_batch trainer l i (bs ++ rest) o2)
               = Some c').
    { unfold after_batch, collect. simpl. rewrite Hp.
      destruct (popped trainer (Some c) o2); eauto. }
    destruct Hc as [c' Hp'].
    rewrite (IH _ (i + 1) os c') by (simpl in *; (lia || assumption)).
    simpl. f_equal. f_equal. rewrite Hp. unfold kept, without_predictions.
    destruct o2; destruct (testing trainer); reflexivity.
Qed.

End Advances.

(** ** The run *)

Section RunLemmas.

Variable trainer : Trainer.

Lemma after_batches_set_iteration_count (bs rest : list pyval) :
  forall (l : EvaluationLoop) (c i : Z) (os : list (pyval * pyval)),
    after_batches trainer (set_iteration_count c l) i bs rest os
    = set_iteration_count c (after_batches trainer l i bs rest os).
Proof.
  induction bs as [|b bs IH]; intros l c i os; [reflexivity|].
  destruct os as [|[o1 o2] os]; [reflexivity|].
  cbn [after_batches]. rewrite <- IH. reflexivity.
Qed.

Lemma batches_calls_set_iteration_count (n d : Z) (bs rest : list pyval) :
  forall (l : EvaluationLoop) (c i : Z) (os : list (pyval * pyval)),
    batches_calls trainer (set_iteration_count c l) n d i bs rest os
    = batches_calls trainer l n d i bs rest os.
Proof.
  induction bs as [|b bs IH]; intros l c i os; [reflexivity|].
  destruct os as [|[o1 o2] os]; [reflexivity|].
  cbn [batches_calls]. f_equal.
  change (after_batch trainer (set_iteration_count c l) i (bs ++ rest) o2)
    with (set_iteration_count c (after_batch trainer l i (bs ++ rest) o2)).
  apply IH.
Qed.

Lemma set_iteration_count_twice (c c' : Z) (l : EvaluationLoop) :
  set_iteration_count c (set_iteration_count c' l) = set_iteration_count c l.
Proof. reflexivity. Qed.

Lemma set_iteration_count_same (l : EvaluationLoop) :
  set_iteration_count (iteration_count l + 0) l = l.
Proof. destruct l. unfold set_iteration_count. simpl. now rewrite Z.add_0_r. Qed.

(** The loop of the run over batches the host answers, as long as the
    index left by the batch before is below the limit. *)
Lemma run_loop_batches (dl : list pyval) (dl_max d nd n N : Z)
  (rest bs : list pyval) :
  forall (fuel : nat) (w : World) (i : Z) (os : list (pyval * pyval)),
    dataloader (self w) = Some {| enum_next := i; enum_rest := bs ++ rest |} ->
    num_dataloaders (self w) = Some n ->
    dl_max_batches (self w) = Some N ->
    batch_outputs trainer n d i bs = Some os ->
    bs = [] \/ done (self w) = Ok false ->
    i + Z.of_nat (List.length bs) <= N + 1 ->
    run_loop trainer (List.length bs + fuel) dl dl_max d nd w
    = run_loop trainer fuel dl dl_max d nd
        {| self :=
             set_iteration_count
               (iteration_count (self w) + Z.of_nat (List.length bs))
               (after_batches trainer (self w) i bs rest os);
           calls := calls w
                    ++ batches_calls trainer (self w) n d i bs rest os |}.
Proof.
  induction bs as [|b bs IH]; intros fuel w i os Hdl Hn HN Hos Hg Hle.
  - simpl. rewrite set_iteration_count_same. now rewrite world_eta.
  - destruct Hg as [Hg|Hg]; [discriminate|].
    apply batch_outputs_cons in Hos
      as (o1 & o2 & os' & -> & Hb & Hout & Hos').
    cbn [List.length Nat.add run_loop]. rewrite Hg.
    rewrite (advance_ok trainer w i b (bs ++ rest) n dl_max d nd dl o1 o2)
      by assumption.
    rewrite (IH fuel _ (i + 1) os'); trivial.
    + unfold bump_iteration_count. cbn [self calls].
      rewrite after_batches_set_iteration_count,
        batches_calls_set_iteration_count, set_iteration_count_twice.
      cbn [after_batches batches_calls]. rewrite <- app_assoc.
      do 3 f_equal. unfold after_batch, set_iteration_count. simpl.
      lia.
    + destruct bs as [|b' bs]; [now left|right].
      unfold done. cbn. rewrite HN.
      cbn [List.length] in Hle. f_equal. apply Z.leb_gt. lia.
    + cbn [List.length] in Hle. lia.
Qed.

(** The loop of the run ends at an exhausted source. *)
Lemma run_loop_exhausted (dl : list pyval) (dl_max d nd i : Z) (fuel : nat)
  (w : World) :
  dataloader (self w) = Some {| enum_next := i; enum_rest := [] |} ->
  done (self w) = Ok false ->
  run_loop trainer (S fuel) dl dl_max d nd w = Some (Ok tt, w).
Proof.
  intros Hdl Hd. cbn [run_loop]. rewrite Hd.
  now rewrite (advance_exhausted trainer w i) by assumption.
Qed.

(** The loop of the run ends when [done] holds. *)
Lemma run_loop_done (dl : list pyval) (dl_max d nd : Z) (fuel : nat)
  (w : World) :
  done (self w) = Ok true ->
  run_loop trainer (S fuel) dl dl_max d nd w = Some (Ok tt, w).
Proof. intros Hd. cbn [run_loop]. now rewrite Hd. Qed.

(** Fuel above the number of batches left is enough for the loop of the run,
    whatever the host does. *)
Lemma run_loop_total (dl : list pyval) (dl_max d nd : Z) :
  forall (fuel : nat) (w : World) (e : Enumerate),
    dataloader (self w) = Some e ->
    (List.length (enum_rest e) < fuel)%nat ->
    exists r, run_loop trainer fuel dl dl_max d nd w = Some r.
Proof.
  induction fuel as [|fuel IH]; intros w e Hdl Hlt; [lia|].
  cbn [run_loop]. destruct (done (self w)) as [[|]|]; eauto.
  destruct (advance trainer dl dl_max d nd w) as [[u|x] w'] eqn:Ha.
  - pose proof (advance_Ok_inv trainer _ _ _ _ _ _ _ Ha)
      as (i & batch & rest & n & o1 & o2 & Hdl' & Hb & Hn & Hout).
    destruct u.
    rewrite (advance_ok trainer w i batch rest n dl_max d nd dl o1 o2)
      in Ha by assumption.
    injection Ha as <-.
    apply (IH _ {| enum_next := i + 1; enum_rest := rest |});
      [reflexivity|].
    rewrite Hdl in Hdl'. injection Hdl' as ->. simpl in *. lia.
  - destruct x; eauto.
Qed.

End RunLemmas.

(** ** A host to run the loop on *)

(** The step returns a [Result] whose predictions are the batch itself. *)
Definition example_step (step_kwargs : OrderedDict.t) : res pyval :=
  Ok (PResult
        [ ("predictions",
           PList [fst (OrderedDict.pop step_kwargs "batch" PNone)]) ]).

(** The step-end hooks hand the output on; every other hook returns
    [None]. *)
Definition example_call_hook (name : string) (args : list pyval) : res pyval :=
  if String.eqb name "test_step_end" || String.eqb name "validation_step_end"
  then Ok (hd PNone args)
  else Ok PNone.

Definition example_trainer (test : bool) : Trainer :=
  {| testing := test;
     global_rank := 0;
     world_size := 1;
     call_hook := example_call_hook;
     accelerator_test_step := example_step;
     accelerator_validation_step := example_step;
     _track_output_for_epoch_end := default_track_output |}.

(** A host whose test step returns a plain dict. *)
Definition plain_dict_trainer : Trainer :=
  {| testing := true;
     global_rank := 0;
     world_size := 1;
     call_hook := example_call_hook;
     accelerator_test_step :=
       fun _ => Ok (PDict [("predictions", PList [PInt 7])]);
     accelerator_validation_step := example_step;
     _track_output_for_epoch_end := default_track_output |}.

(** A loop that was reset and given the source [dl]. *)
Definition started (trainer : Trainer) (l : EvaluationLoop) (cs : list Event)
  (dl : list pyval) (dl_max d nd : Z) : World :=
  {| self := on_run_start (reset trainer l) dl dl_max d nd; calls := cs |}.

(** ** Properties of the loop *)

(** C1.  The code departs from the claim: on a loop that never pulled a
    batch, after exactly [N] successful calls of [advance] under
    [dl_max_batches = N] the property [done] is still false, and one more
    [advance] over a further batch of the source succeeds and calls the step
    function on the batch of index [N]. *)
Theorem advance_beyond_max_batches (trainer : Trainer) (l : EvaluationLoop)
  (cs : list Event) (N d nd : Z) (bs rest : list pyval) (extra o1 o2 : pyval)
  (os : list (pyval * pyval)) :
  batch_idx l = None ->
  Z.of_nat (List.length bs) = N ->
  batch_outputs trainer nd d 0 bs = Some os ->
  is_None extra = false ->
  batch_output trainer nd d N extra = Ok (o1, o2) ->
  let dl := bs ++ extra :: rest in
  exists w1 w2,
    advances trainer (List.length bs) dl N d nd (started trainer l cs dl N d nd)
    = (Ok tt, w1)
    /\ done (self w1) = Ok false
    /\ advance trainer dl N d nd w1 = (Ok tt, w2)
    /\ In (step_event trainer (step_kwargs_for nd extra N d))
          (skipn (List.length (calls w1)) (calls w2)).
Proof.
  intros Hfresh HN Hos Hex Hout dl.
  pose proof (batch_outputs_length trainer nd d bs 0 os Hos) as Hlen.
  pose proof (advances_ok trainer dl N d nd nd (extra :: rest) bs
                (started trainer l cs dl N d nd) 0 os eq_refl eq_refl Hos)
    as Hadv.
  eexists. eexists. split; [exact Hadv|].
  cbn [self calls].
  assert (Hdl : dataloader
                  (after_batches trainer
                     (self (started trainer l cs dl N d nd)) 0 bs
                     (extra :: rest) os)
                = Some {| enum_next := N; enum_rest := extra :: rest |}).
  { destruct bs as [|b bs].
    - simpl in HN. subst N. reflexivity.
    - destruct (after_batches_cursor trainer (b :: bs) (extra :: rest)
                  (self (started trainer l cs dl N d nd)) 0 os Hlen)
        as [H _]; [discriminate|].
      rewrite H. do 2 f_equal. lia. }
  assert (Hn : num_dataloaders
                 (after_batches trainer
                    (self (started trainer l cs dl N d nd)) 0 bs
                    (extra :: rest) os) = Some nd).
  { destruct (after_batches_frame trainer bs (extra :: rest)
                (self (started trainer l cs dl N d nd)) 0 os)
      as (_ & _ & _ & H). rewrite H. reflexivity. }
  split; [|split].
  - destruct bs as [|b bs].
    + simpl. unfold done. simpl. now rewrite Hfresh.
    + destruct (after_batches_cursor trainer (b :: bs) (extra :: rest)
                  (self (started trainer l cs dl N d nd)) 0 os Hlen)
        as [_ H]; [discriminate|].
      destruct (after_batches_frame trainer (b :: bs) (extra :: rest)
                  (self (started trainer l cs dl N d nd)) 0 os)
        as (_ & H' & _).
      rewrite HN in H. unfold done. rewrite H, H'. simpl. f_equal.
      apply Z.leb_gt. lia.
  - apply (advance_ok trainer _ N extra rest nd N d nd dl o1 o2); assumption.
  - cbn [calls]. rewrite skipn_length_app.
    unfold batch_calls. simpl. auto 10.
Qed.

Lemma advance_beyond_max_batches_witness :
  exists w1 w2,
    advances (example_trainer true) 1 [PInt 10; PInt 11] 1 0 1
      (started (example_trainer true) init [] [PInt 10; PInt 11] 1 0 1)
    = (Ok tt, w1)
    /\ done (self w1) = Ok false
    /\ advance (example_trainer true) [PInt 10; PInt 11] 1 0 1 w1 = (Ok tt, w2)
    /\ In (step_event (example_trainer true)
             (step_kwargs_for 1 (PInt 11) 1 0))
          (skipn (List.length (calls w1)) (calls w2)).
Proof.
  apply (advance_beyond_max_batches (example_trainer true) init [] 1 0 1
           [PInt 10] [] (PInt 11)
           (PResult [("predictions", PList [PInt 11])])
           (PResult [("predictions", PList [PInt 11])])
           [(PResult [("predictions", PList [PInt 10])],
             PResult [("predictions", PList [PInt 10])])]);
    reflexivity.
Defined.

(** C2.  At every reachable state, [done] is true exactly when [batch_idx]
    is set and is at least [dl_max_batches]; and a successful [advance] sets
    [batch_idx] to the index the cursor stands at, which is 0 for the first
    batch of a source and otherwise one more than the index of the batch
    pulled before; [on_run_start] puts the cursor at 0. *)
Theorem done_iff_and_batch_idx_succ (trainer : Trainer) (w : World) :
  reachable trainer w ->
  (done (self w) = Ok true
   <-> exists i m,
         batch_idx (self w) = Some i
         /\ dl_max_batches (self w) = Some m
         /\ i >= m)
  /\ (forall dl dl_max d nd u w',
         advance trainer dl dl_max d nd w = (Ok u, w') ->
         exists e,
           dataloader (self w) = Some e
           /\ batch_idx (self w') = Some (enum_next e)
           /\ (enum_next e = 0
               \/ batch_idx (self w) = Some (enum_next e - 1)))
  /\ (forall dl dl_max d nd,
         dataloader (on_run_start (self w) dl dl_max d nd)
         = Some {| enum_next := 0; enum_rest := dl |}).
Proof.
  intros Hr. split; [|split].
  - unfold done. destruct (batch_idx (self w)) as [i|].
    + destruct (dl_max_batches (self w)) as [m|].
      * split.
        -- intros H. injection H as H. apply Z.leb_le in H.
           exists i, m. repeat split; trivial. lia.
        -- intros (i' & m' & Hi & Hm & Hge).
           injection Hi as <-. injection Hm as <-.
           f_equal. apply Z.leb_le. lia.
      * split; [discriminate|]. intros (i' & m' & _ & Hm & _). discriminate.
    + split; [discriminate|]. intros (i' & m' & Hi & _). discriminate.
  - intros dl dl_max d nd u w' Ha.
    pose proof (reachable_cursor_inv trainer w Hr) as Hinv.
    pose proof (advance_Ok_inv trainer _ _ _ _ _ _ _ Ha)
      as (i & batch & rest & n & o1 & o2 & Hdl & Hb & Hn & Hout).
    destruct u.
    rewrite (advance_ok trainer w i batch rest n dl_max d nd dl o1 o2)
      in Ha by assumption.
    injection Ha as <-.
    unfold cursor_inv in Hinv. rewrite Hdl in Hinv.
    eexists. split; [exact Hdl|]. split; [reflexivity|exact Hinv].
  - reflexivity.
Qed.

Lemma done_iff_and_batch_idx_succ_witness :
  let w := started (example_trainer false) init [] [PInt 10; PInt 11] 5 0 1 in
  (done (self w) = Ok true
   <-> exists i m,
         batch_idx (self w) = Some i
         /\ dl_max_batches (self w) = Some m
         /\ i >= m)
  /\ (forall dl dl_max d nd u w',
         advance (example_trainer false) dl dl_max d nd w = (Ok u, w') ->
         exists e,
           dataloader (self w) = Some e
           /\ batch_idx (self w') = Some (enum_next e)
           /\ (enum_next e = 0
               \/ batch_idx (self w) = Some (enum_next e - 1)))
  /\ (forall dl dl_max d nd,
         dataloader (on_run_start (self w) dl dl_max d nd)
         = Some {| enum_next := 0; enum_rest := dl |}).
Proof.
  apply (done_iff_and_batch_idx_succ (example_trainer false)).
  apply (reachable_on_run_start (example_trainer false)
           {| self := reset (example_trainer false) init; calls := [] |}).
  apply (reachable_reset (example_trainer false)
           {| self := init; calls := [] |}).
  apply reachable_init.
Defined.

(** C3.  A successful [advance] makes the per-batch calls once each and in
    this order: the batch-start hook of the mode, the step function of the
    mode, the step-end hook of the mode, the batch-end hook of the mode,
    [store_predictions]. *)
Theorem advance_call_order (trainer : Trainer) (w w' : World)
  (dl : list pyval) (dl_max d nd : Z) (u : unit) :
  advance trainer dl dl_max d nd w = (Ok u, w') ->
  exists new,
    calls w' = calls w ++ new
    /\ phases new
       = if testing trainer
         then [ "on_test_batch_start"; "test_step"; "test_step_end";
                "on_test_batch_end"; "store_predictions" ]
         else [ "on_validation_batch_start"; "validation_step";
                "validation_step_end"; "on_validation_batch_end";
                "store_predictions" ].
Proof.
  intros Ha.
  pose proof (advance_Ok_inv trainer _ _ _ _ _ _ _ Ha)
    as (i & batch & rest & n & o1 & o2 & Hdl & Hb & Hn & Hout).
  destruct u.
  rewrite (advance_ok trainer w i batch rest n dl_max d nd dl o1 o2)
    in Ha by assumption.
  injection Ha as <-. cbn [calls].
  eexists. split; [reflexivity|]. apply phases_batch_calls.
Qed.

Lemma advance_call_order_witness :
  exists new,
    calls
      (snd (advance (example_trainer true) [PInt 10] 1 0 1
              (started (example_trainer true) init [] [PInt 10] 1 0 1)))
    = [] ++ new
    /\ phases new
       = [ "on_test_batch_start"; "test_step"; "test_step_end";
           "on_test_batch_end"; "store_predictions" ].
Proof.
  apply (advance_call_order (example_trainer true)
           (started (example_trainer true) init [] [PInt 10] 1 0 1)
           _ [PInt 10] 1 0 1 tt).
  reflexivity.
Defined.

(** C4, as the claim states it, fails: a test-mode output that is not null
    but is no [Result] keeps its predictions and the collection stays as it
    was. *)
Lemma store_predictions_plain_dict_counterexample :
  ~ (forall (trainer : Trainer) (w w' : World) (output : pyval) (i d : Z)
            (c : PredictionCollection.t) (r : res pyval),
        testing trainer = true ->
        is_None output = false ->
        predictions (self w) = Some c ->
        store_predictions trainer output i d w = (r, w') ->
        exists c',
          predictions (self w') = Some c'
          /\ PredictionCollection.items c'
             = PredictionCollection.items c
               ++ PredictionCollection.values (get_field output "predictions")).
Proof.
  intros H.
  destruct (H plain_dict_trainer
              {| self := reset plain_dict_trainer init; calls := [] |}
              _ (PDict [("predictions", PList [PInt 7])]) 0 0
              (PredictionCollection.new 0 1) _
              eq_refl eq_refl eq_refl eq_refl) as (c' & Hc & Hi).
  simpl in Hc. injection Hc as <-. discriminate Hi.
Qed.

(** C4, amended.  After [reset], [on_run_start] and successful advances over
    the batches [bs] of a source, in test mode the prediction collection
    holds, in batch order, what the [Result] outputs carried under
    [predictions], each such output is aggregated without that key and
    every other output as it is; in validation mode the collection is empty
    and the outputs are aggregated as they are. *)
Theorem predictions_after_advances (trainer : Trainer) (l : EvaluationLoop)
  (cs : list Event) (dl_max d nd : Z) (bs rest : list pyval)
  (os : list (pyval * pyval)) :
  batch_outputs trainer nd d 0 bs = Some os ->
  let dl := bs ++ rest in
  exists w',
    advances trainer (List.length bs) dl dl_max d nd
      (started trainer l cs dl dl_max d nd)
    = (Ok tt, w')
    /\ predictions (self w')
       = Some {| PredictionCollection.global_rank := global_rank trainer;
                 PredictionCollection.world_size := world_size trainer;
                 PredictionCollection.items :=
                   if testing trainer
                   then flat_map (fun o => result_predictions (snd o)) os
                   else [] |}
    /\ outputs (self w')
       = fold_left (_track_output_for_epoch_end trainer)
           (map (fun o => if testing trainer
                          then without_predictions (snd o)
                          else snd o) os)
           [].
Proof.
  intros Hos dl.
  pose proof (batch_outputs_length trainer nd d bs 0 os Hos) as Hlen.
  eexists. split.
  - exact (advances_ok trainer dl dl_max d nd nd rest bs
             (started trainer l cs dl dl_max d nd) 0 os eq_refl eq_refl Hos).
  - cbn [self]. split.
    + rewrite (after_batches_predictions trainer bs rest
                 (self (started trainer l cs dl dl_max d nd)) 0 os
                 (PredictionCollection.new (global_rank trainer)
                                           (world_size trainer)) Hlen eq_refl).
      reflexivity.
    + rewrite (after_batches_outputs trainer bs rest
                 (self (started trainer l cs dl dl_max d nd)) 0 os
                 (PredictionCollection.new (global_rank trainer)
                                           (world_size trainer)) Hlen eq_refl).
      reflexivity.
Qed.

Lemma predictions_after_advances_witness :
  exists w',
    advances (example_trainer true) 3 [PInt 10; PInt 11; PInt 12] 3 0 1
      (started (example_trainer true) init [] [PInt 10; PInt 11; PInt 12]
         3 0 1)
    = (Ok tt, w')
    /\ predictions (self w')
       = Some {| PredictionCollection.global_rank := 0;
                 PredictionCollection.world_size := 1;
                 PredictionCollection.items :=
                   [PInt 10; PInt 11; PInt 12] |}
    /\ outputs (self w') = [PResult []; PResult []; PResult []].
Proof.
  apply (predictions_after_advances (example_trainer true) init [] 3 0 1
           [PInt 10; PInt 11; PInt 12] []
           [ (PResult [("predictions", PList [PInt 10])],
              PResult [("predictions", PList [PInt 10])]);
             (PResult [("predictions", PList [PInt 11])],
              PResult [("predictions", PList [PInt 11])]);
             (PResult [("predictions", PList [PInt 12])],
              PResult [("predictions", PList [PInt 12])]) ]).
  reflexivity.
Defined.

(** C5.  In either mode the mapping built for the step call has the keys
    [batch] and [batch_idx] in this order, followed by [dataloader_idx]
    exactly when [num_dataloaders > 1]. *)
Theorem build_kwargs_keys (trainer : Trainer) (w : World) (n : Z)
  (batch : pyval) (i d : Z) :
  num_dataloaders (self w) = Some n ->
  exists step_kwargs,
    _build_kwargs trainer batch i d w = (Ok step_kwargs, w)
    /\ step_kwargs
       = [("batch", batch); ("batch_idx", PInt i)]
         ++ (if 1 <? n then [("dataloader_idx", PInt d)] else [])
    /\ OrderedDict.keys step_kwargs
       = ["batch"; "batch_idx"]
         ++ (if 1 <? n then ["dataloader_idx"] else [])
    /\ (In "dataloader_idx" (OrderedDict.keys step_kwargs) <-> n > 1).
Proof.
  intros Hn. eexists. split; [exact (build_kwargs_eq trainer w n batch i d Hn)|].
  unfold step_kwargs_for, OrderedDict.keys.
  destruct (1 <? n) eqn:Hgt; simpl; repeat split; trivial.
  - intros _. apply Z.ltb_lt in Hgt. lia.
  - intros _. auto.
  - intros [H|[H|[]]]; discriminate.
  - intros H. apply Z.ltb_ge in Hgt. lia.
Qed.

Lemma build_kwargs_keys_witness :
  exists step_kwargs,
    _build_kwargs (example_trainer false) (PInt 10) 0 1
      (started (example_trainer false) init [] [PInt 10] 5 1 2)
    = (Ok step_kwargs,
       started (example_trainer false) init [] [PInt 10] 5 1 2)
    /\ step_kwargs
       = [("batch", PInt 10); ("batch_idx", PInt 0)]
         ++ (if 1 <? 2 then [("dataloader_idx", PInt 1)] else [])
    /\ OrderedDict.keys step_kwargs
       = ["batch"; "batch_idx"]
         ++ (if 1 <? 2 then ["dataloader_idx"] else [])
    /\ (In "dataloader_idx" (OrderedDict.keys step_kwargs) <-> 2 > 1).
Proof.
  apply (build_kwargs_keys (example_trainer false)
           (started (example_trainer false) init [] [PInt 10] 5 1 2) 2
           (PInt 10) 0 1).
  reflexivity.
Defined.

Lemma fold_default_track_output (xs : list pyval) :
  forall acc,
    Forall (fun x => is_None x = false) xs ->
    fold_left default_track_output xs acc = acc ++ xs.
Proof.
  induction xs as [|x xs IH]; intros acc H; simpl.
  - now rewrite app_nil_r.
  - inversion H as [|? ? Hx Hxs]; subst.
    unfold default_track_output at 2. rewrite Hx.
    rewrite IH by assumption. now rewrite <- app_assoc.
Qed.

Lemma without_predictions_not_None (o : pyval) :
  is_None o = false -> is_None (without_predictions o) = false.
Proof. destruct o; simpl; trivial. Qed.

(** C6.  A run over a source that is exhausted after [K < dl_max_batches]
    batches ends without an error after [K] counted iterations and returns
    [K] aggregated outputs, one per batch in batch order: the
    [StopIteration] of the exhausted source is the normal end of the run.
    The host answers every call on the batches, its outputs are not null and
    it aggregates by the default policy; the loop starts the run with no
    batch index, or with one below the limit. *)
Theorem run_source_exhausted (trainer : Trainer) (w : World)
  (dl : list pyval) (N d nd : Z) (os : list (pyval * pyval)) (fuel : nat) :
  _track_output_for_epoch_end trainer = default_track_output ->
  batch_outputs trainer nd d 0 dl = Some os ->
  Forall (fun o => is_None (snd o) = false) os ->
  Z.of_nat (List.length dl) < N ->
  match batch_idx (self w) with Some j => j < N | None => True end ->
  (List.length dl < fuel)%nat ->
  exists outs w',
    run trainer fuel dl N d nd w = Some (Ok outs, w')
    /\ List.length outs = List.length dl
    /\ outs = map (fun o => if testing trainer
                            then without_predictions (snd o)
                            else snd o) os
    /\ iteration_count (self w') = Z.of_nat (List.length dl)
    /\ dataloader (self w')
       = Some {| enum_next := Z.of_nat (List.length dl); enum_rest := [] |}.
Proof.
  intros Htrack Hos Hnn HK Hstale Hfuel.
  pose proof (batch_outputs_length trainer nd d dl 0 os Hos) as Hlen.
  destruct (Nat.le_exists_sub (S (List.length dl)) fuel) as [f [Hf _]];
    [lia|].
  replace fuel with (List.length dl + S f)%nat by lia.
  set (w0 := {| self := on_run_start (reset trainer (self w)) dl N d nd;
                calls := calls w |}).
  assert (Hd0 : done (self w0) = Ok false).
  { unfold done. simpl. destruct (batch_idx (self w)) as [j|]; trivial.
    f_equal. apply Z.leb_gt. lia. }
  assert (Hdl0 : dataloader (self w0)
                 = Some {| enum_next := 0; enum_rest := dl ++ [] |}).
  { simpl. unfold enumerate. now rewrite app_nil_r. }
  pose proof (run_loop_batches trainer dl N d nd nd N [] dl (S f) w0 0 os
                Hdl0 eq_refl eq_refl Hos (or_intror Hd0)) as Hrun.
  unfold run. cbv zeta. fold w0. rewrite Hrun by lia. clear Hrun.
  set (l' := after_batches trainer (self w0) 0 dl [] os).
  assert (Hcur : dataloader l'
                 = Some {| enum_next := Z.of_nat (List.length dl);
                           enum_rest := [] |}
                 /\ done l' = Ok false).
  { subst l'. destruct dl as [|b dl'].
    - destruct os; [|discriminate]. simpl. split; [reflexivity|].
      exact Hd0.
    - destruct (after_batches_cursor trainer (b :: dl') [] (self w0) 0 os
                  Hlen) as [H1 H2]; [discriminate|].
      destruct (after_batches_frame trainer (b :: dl') [] (self w0) 0 os)
        as (_ & H3 & _).
      split; [rewrite H1; reflexivity|].
      unfold done. rewrite H2, H3.
      change (dl_max_batches (self w0)) with (Some N). cbv beta iota.
      f_equal. apply Z.leb_gt. lia. }
  destruct Hcur as [Hcur Hdone].
  rewrite (run_loop_exhausted trainer dl N d nd
             (Z.of_nat (List.length dl)) f);
    [|exact Hcur|exact Hdone].
  eexists. eexists. split; [reflexivity|].
  cbn [self on_run_end]. unfold set_iteration_count at 1 2.
  cbn [outputs iteration_count dataloader].
  fold l'. split; [|split; [|split]]; trivial.
  - subst l'.
    rewrite (after_batches_outputs trainer dl [] (self w0) 0 os
               (PredictionCollection.new (global_rank trainer)
                  (world_size trainer)) Hlen eq_refl).
    rewrite Htrack, fold_default_track_output.
    + simpl. rewrite length_map. exact Hlen.
    + apply Forall_map. eapply Forall_impl; [|exact Hnn].
      intros o Ho. destruct (testing trainer); trivial.
      now apply without_predictions_not_None.
  - subst l'.
    rewrite (after_batches_outputs trainer dl [] (self w0) 0 os
               (PredictionCollection.new (global_rank trainer)
                  (world_size trainer)) Hlen eq_refl).
    rewrite Htrack, fold_default_track_output; [reflexivity|].
    apply Forall_map. eapply Forall_impl; [|exact Hnn].
    intros o Ho. destruct (testing trainer); trivial.
    now apply without_predictions_not_None.
Qed.

Lemma run_source_exhausted_witness :
  exists outs w',
    run (example_trainer false) 3 [PInt 10; PInt 11] 5 0 1
      {| self := init; calls := [] |}
    = Some (Ok outs, w')
    /\ List.length outs = 2%nat
    /\ outs = [ PResult [("predictions", PList [PInt 10])];
                PResult [("predictions", PList [PInt 11])] ]
    /\ iteration_count (self w') = 2
    /\ dataloader (self w') = Some {| enum_next := 2; enum_rest := [] |}.
Proof.
  apply (run_source_exhausted (example_trainer false)
           {| self := init; calls := [] |} [PInt 10; PInt 11] 5 0 1
           [ (PResult [("predictions", PList [PInt 10])],
              PResult [("predictions", PList [PInt 10])]);
             (PResult [("predictions", PList [PInt 11])],
              PResult [("predictions", PList [PInt 11])]) ] 3).
  - reflexivity.
  - reflexivity.
  - repeat constructor.
  - reflexivity.
  - exact I.
  - simpl. lia.
Defined.

(** With fuel above the length of the source the run gives a result, whatever
    the host does. *)
Lemma run_total (trainer : Trainer) (dl : list pyval) (N d nd : Z)
  (w : World) :
  exists r, run trainer (S (List.length dl)) dl N d nd w = Some r.
Proof.
  unfold run. cbv zeta.
  destruct (run_loop_total trainer dl N d nd (S (List.length dl))
              {| self := on_run_start (reset trainer (self w)) dl N d nd;
                 calls := calls w |}
              (enumerate dl) eq_refl) as [[r w'] Hr]; [simpl; lia|].
  rewrite Hr. destruct r; eauto.
Qed.

(** C7.  The code departs from the claim: [reset] assigns neither
    [batch_idx] nor the cursor.  On a new loop, [reset], a run over the one
    batch of a source ([on_run_start], an [advance] that succeeds, an
    [advance] that meets the exhausted source, [on_run_end]) and [reset]
    again leave [batch_idx] at 0, where the first [reset] left it unset. *)
Theorem reset_after_run_keeps_batch_idx :
  let trainer := example_trainer true in
  let w0 := started trainer init [] [PInt 10] 1 0 1 in
  let w1 := snd (advance trainer [PInt 10] 1 0 1 w0) in
  let w2 := snd (advance trainer [PInt 10] 1 0 1 w1) in
  fst (advance trainer [PInt 10] 1 0 1 w0) = Ok tt
  /\ done (self w1) = Ok false
  /\ fst (advance trainer [PInt 10] 1 0 1 w1) = Raise StopIteration
  /\ on_run_end (self w2) = [PResult []]
  /\ batch_idx (reset trainer init) = None
  /\ batch_idx (reset trainer (self w2)) = Some 0
  /\ dataloader (reset trainer init) = None
  /\ dataloader (reset trainer (self w2))
     = Some {| enum_next := 1; enum_rest := [] |}
  /\ reset trainer (self w2) <> reset trainer init
  /\ (forall t l,
         batch_idx (reset t l) = batch_idx l
         /\ dataloader (reset t l) = dataloader l).
Proof.
  cbv zeta. repeat split; try reflexivity.
  intros H. apply (f_equal batch_idx) in H. discriminate H.
Qed.

(** C8, as the claim states it, fails: on a new loop [advance] raises
    [TypeError], which is no configuration error. *)
Lemma advance_before_reset_counterexample :
  ~ (forall (trainer : Trainer) (w : World) (dl : list pyval)
            (dl_max d nd : Z),
        dl_max_batches (self w) = None ->
        fst (advance trainer dl dl_max d nd w)
        = Raise MisconfigurationException).
Proof.
  intros H.
  specialize (H (example_trainer true) {| self := init; calls := [] |}
                [PInt 10] 1 0 1 eq_refl).
  discriminate H.
Qed.

(** C8, amended.  On a loop no source was installed in, which is the case
    before [reset] and until the first [on_run_start], [advance] raises the
    [TypeError] of [next] on the missing iterator; it changes nothing and
    makes no call. *)
Theorem advance_without_iterator (trainer : Trainer) (w : World)
  (dl : list pyval) (dl_max d nd : Z) :
  dataloader (self w) = None ->
  advance trainer dl dl_max d nd w = (Raise TypeError, w)
  /\ dataloader (reset trainer (self w)) = None.
Proof.
  intros H. split; [now apply advance_no_iterator|exact H].
Qed.

Lemma advance_without_iterator_witness :
  advance (example_trainer true) [PInt 10] 1 0 1
    {| self := init; calls := [] |}
  = (Raise TypeError, {| self := init; calls := [] |})
  /\ dataloader (reset (example_trainer true) init) = None.
Proof.
  apply (advance_without_iterator (example_trainer true)
           {| self := init; calls := [] |} [PInt 10] 1 0 1).
  reflexivity.
Defined.

(** C9.  When the cursor yields a null batch, [advance] records the index of
    that batch in [batch_idx] and then raises [StopIteration]; it makes no
    call to the host and leaves outputs, predictions and iteration count as
    they were. *)
Theorem advance_null_batch_sets_batch_idx (trainer : Trainer) (w : World)
  (i : Z) (rest dl : list pyval) (dl_max d nd : Z) :
  dataloader (self w)
  = Some {| enum_next := i; enum_rest := PNone :: rest |} ->
  exists w',
    advance trainer dl dl_max d nd w = (Raise StopIteration, w')
    /\ batch_idx (self w') = Some i
    /\ dataloader (self w')
       = Some {| enum_next := i + 1; enum_rest := rest |}
    /\ calls w' = calls w
    /\ outputs (self w') = outputs (self w)
    /\ predictions (self w') = predictions (self w)
    /\ iteration_count (self w') = iteration_count (self w).
Proof.
  intros H. eexists. split.
  - exact (advance_null_batch trainer w i PNone rest dl dl_max d nd H
             eq_refl).
  - repeat split.
Qed.

Lemma advance_null_batch_sets_batch_idx_witness :
  exists w',
    advance (example_trainer true) [PNone; PInt 11] 5 0 1
      (started (example_trainer true) init [] [PNone; PInt 11] 5 0 1)
    = (Raise StopIteration, w')
    /\ batch_idx (self w') = Some 0
    /\ dataloader (self w')
       = Some {| enum_next := 0 + 1; enum_rest := [PInt 11] |}
    /\ calls w' = []
    /\ outputs (self w') = []
    /\ predictions (self w')
       = Some (PredictionCollection.new 0 1)
    /\ iteration_count (self w') = 0.
Proof.
  apply (advance_null_batch_sets_batch_idx (example_trainer true)
           (started (example_trainer true) init [] [PNone; PInt 11] 5 0 1)
           0 [PInt 11] [PNone; PInt 11] 5 0 1).
  reflexivity.
Defined.

(** C10.  Once [batch_idx] is set, [reset] keeps it and unsets
    [dl_max_batches], so [done] raises the [TypeError] of comparing an int
    with [None]; after [on_run_start] has stored a new limit, [done] is a
    boolean again, computed from the index of the earlier run. *)
Theorem done_after_reset_raises (trainer : Trainer) (l : EvaluationLoop)
  (i : Z) :
  batch_idx l = Some i ->
  batch_idx (reset trainer l) = Some i
  /\ dl_max_batches (reset trainer l) = None
  /\ done (reset trainer l) = Raise TypeError
  /\ (forall dl dl_max d nd,
         done (on_run_start (reset trainer l) dl dl_max d nd)
         = Ok (dl_max <=? i)).
Proof.
  intros H. unfold done. simpl. rewrite H. auto.
Qed.

Lemma done_after_reset_raises_witness :
  let trainer := example_trainer true in
  let l :=
    self (snd (advance trainer [PInt 10] 1 0 1
                 (started trainer init [] [PInt 10] 1 0 1))) in
  batch_idx (reset trainer l) = Some 0
  /\ dl_max_batches (reset trainer l) = None
  /\ done (reset trainer l) = Raise TypeError
  /\ (forall dl dl_max d nd,
         done (on_run_start (reset trainer l) dl dl_max d nd)
         = Ok (dl_max <=? 0)).
Proof.
  cbv zeta.
  apply (done_after_reset_raises (example_trainer true)
           (self (snd (advance (example_trainer true) [PInt 10] 1 0 1
                         (started (example_trainer true) init []
                            [PInt 10] 1 0 1)))) 0).
  reflexivity.
Defined.

(** ** Further properties: a host call that raises *)

(** The loop once [advance] has pulled the batch of index [i]: the cursor
    stands behind that batch and [batch_idx] is [i]. *)
Definition pulled (l : EvaluationLoop) (i : Z) (rest : list pyval)
  : EvaluationLoop :=
  set_batch_idx (Some i)
    (set_dataloader (Some {| enum_next := i + 1; enum_rest := rest |}) l).

(** The calls of [on_evaluation_batch_start]. *)
Definition start_calls (trainer : Trainer) (n : option Z) (d i : Z)
  (batch : pyval) : list Event :=
  [ LoggerOnEvaluationBatchStart batch d n;
    CallHook (mode_name trainer "on_test_batch_start"
                "on_validation_batch_start")
             [batch; PInt i; PInt d] ].

(** The calls of [evaluation_step] up to the return of the step function. *)
Definition step_calls (trainer : Trainer) (n d i : Z) (batch : pyval)
  : list Event :=
  [ NewResults;
    SetCurrentFxName (mode_name trainer "test_step" "validation_step");
    ProfileEnter (mode_name trainer "test_step" "validation_step");
    step_event trainer (step_kwargs_for n batch i d);
    ProfileExit (mode_name trainer "test_step" "validation_step") ].

(** A host like [example_trainer] in which the hook or step function named
    [bad] raises [RuntimeError]. *)
Definition faulty_trainer (test : bool) (bad : string) : Trainer :=
  {| testing := test;
     global_rank := 0;
     world_size := 1;
     call_hook := fun name args =>
       if String.eqb name bad then Raise (OtherException "RuntimeError")
       else example_call_hook name args;
     accelerator_test_step := fun step_kwargs =>
       if String.eqb "test_step" bad
       then Raise (OtherException "RuntimeError")
       else example_step step_kwargs;
     accelerator_validation_step := fun step_kwargs =>
       if String.eqb "validation_step" bad
       then Raise (OtherException "RuntimeError")
       else example_step step_kwargs;
     _track_output_for_epoch_end := default_track_output |}.

Section Raising.

Variable trainer : Trainer.

Lemma on_evaluation_batch_start_raise (w : World) (batch : pyval) (i d : Z)
  (e : exn) :
  call_hook trainer
    (mode_name trainer "on_test_batch_start" "on_validation_batch_start")
    [batch; PInt i; PInt d] = Raise e ->
  on_evaluation_batch_start trainer batch i d w
  = (Raise e,
     {| self := self w;
        calls := calls w
                 ++ start_calls trainer (num_dataloaders (self w)) d i
                      batch |}).
Proof.
  unfold on_evaluation_batch_start, start_calls, mode_name, bind, gets, log,
    lift, ret.
  destruct (testing trainer); simpl; intros ->; flatten_calls; reflexivity.
Qed.

Lemma evaluation_step_unset (w : World) (batch : pyval) (i d : Z) :
  num_dataloaders (self w) = None ->
  evaluation_step trainer batch i d w = (Raise TypeError, w).
Proof.
  intros Hn. unfold evaluation_step, _build_kwargs, num_dataloaders_gt_1,
    bind, gets, ret, raise.
  destruct (testing trainer); simpl; rewrite Hn; reflexivity.
Qed.

Lemma evaluation_step_raise (w : World) (n : Z) (batch : pyval) (i d : Z)
  (e : exn) :
  num_dataloaders (self w) = Some n ->
  accelerator_step trainer (step_kwargs_for n batch i d) = Raise e ->
  evaluation_step trainer batch i d w
  = (Raise e,
     {| self := self w;
        calls := calls w ++ step_calls trainer n d i batch |}).
Proof.
  intros Hn Hstep. unfold evaluation_step. unfold bind at 1.
  rewrite (build_kwargs_eq trainer w n batch i d Hn).
  unfold accelerator_step, step_calls, mode_name, step_event in *.
  unfold profile, bind, log, lift, ret.
  destruct (testing trainer); simpl; rewrite Hstep; simpl;
    flatten_calls; reflexivity.
Qed.

Lemma evaluation_step_end_raise (w : World) (o1 : pyval) (e : exn) :
  call_hook trainer (mode_name trainer "test_step_end" "validation_step_end")
    [o1] = Raise e ->
  evaluation_step_end trainer o1 w
  = (Raise e,
     {| self := self w;
        calls := calls w
          ++ [ CallHook
                 (mode_name trainer "test_step_end" "validation_step_end")
                 [o1] ] |}).
Proof.
  unfold evaluation_step_end, mode_name, bind, log, lift.
  destruct (testing trainer); simpl; intros ->; reflexivity.
Qed.

Lemma on_evaluation_batch_end_raise (w : World) (output batch : pyval)
  (i d : Z) (e : exn) :
  call_hook trainer
    (mode_name trainer "on_test_batch_end" "on_validation_batch_end")
    [output; batch; PInt i; PInt d] = Raise e ->
  on_evaluation_batch_end trainer output batch i d w
  = (Raise e,
     {| self := self w;
        calls := calls w
          ++ [ CallHook
                 (mode_name trainer "on_test_batch_end"
                    "on_validation_batch_end")
                 [output; batch; PInt i; PInt d] ] |}).
Proof.
  intros H. unfold on_evaluation_batch_end. unfold bind at 1.
  unfold mode_name in *.
  destruct (testing trainer); unfold bind, log, lift, ret; simpl;
    rewrite H; reflexivity.
Qed.

(** The part of [advance] up to the pull, on a non-null batch. *)
Lemma advance_pull (w : World) (i : Z) (batch : pyval) (rest dl : list pyval)
  (dl_max d nd : Z) :
  dataloader (self w)
  = Some {| enum_next := i; enum_rest := batch :: rest |} ->
  is_None batch = false ->
  advance trainer dl dl_max d nd w
  = bind (on_evaluation_batch_start trainer batch i d)
      (fun _ =>
         output <-
           profile "evaluation_step_and_end"
             (output <- evaluation_step trainer batch i d ;;
              evaluation_step_end trainer output) ;;
         output <- on_evaluation_batch_end trainer output batch i d ;;
         log LogEvaluationStepMetrics ;;;
         log (TrackOutputForEpochEnd output) ;;;
         outputs_ <- gets outputs ;;
         modify (set_outputs
                   (_track_output_for_epoch_end trainer outputs_ output)))
      {| self := pulled (self w) i rest; calls := calls w |}.
Proof.
  intros Hdl Hb. unfold advance. unfold bind at 1.
  unfold next_dataloader. rewrite Hdl. cbn [enum_rest enum_next].
  unfold bind at 1. unfold modify at 1. cbn [self calls]. rewrite Hb.
  reflexivity.
Qed.

End Raising.

Section AdvanceRaises.

Variable trainer : Trainer.

(** X3.  When the batch-start hook of the mode raises, [advance] raises the
    same exception; the batch is consumed and its index recorded, and
    nothing after the hook is called: no profiling scope, no step, no
    end hook. *)
Theorem advance_start_hook_raises (w : World) (i : Z) (batch : pyval)
  (rest dl : list pyval) (dl_max d nd : Z) (e : exn) :
  dataloader (self w)
  = Some {| enum_next := i; enum_rest := batch :: rest |} ->
  is_None batch = false ->
  call_hook trainer
    (mode_name trainer "on_test_batch_start" "on_validation_batch_start")
    [batch; PInt i; PInt d] = Raise e ->
  advance trainer dl dl_max d nd w
  = (Raise e,
     {| self := pulled (self w) i rest;
        calls := calls w
                 ++ start_calls trainer (num_dataloaders (self w)) d i
                      batch |}).
Proof.
  intros Hdl Hb H.
  destruct w as [[ic p dlo mb di ndl bi outs] cs]. simpl in *. subst.
  rewrite (advance_pull trainer _ i batch rest) by trivial.
  unfold bind at 1.
  rewrite (on_evaluation_batch_start_raise trainer _ _ _ _ e H).
  unfold start_calls, pulled. reflexivity.
Qed.

(** X7.  When [num_dataloaders] is unset, as [reset] leaves it, and the
    cursor still holds a batch, [advance] calls the batch-start hook and only
    then raises the [TypeError] of [self.num_dataloaders > 1]; the
    profiling scope it had entered is left, the step is not called. *)
Theorem advance_unset_num_dataloaders (w : World) (i : Z) (batch v : pyval)
  (rest dl : list pyval) (dl_max d nd : Z) :
  dataloader (self w)
  = Some {| enum_next := i; enum_rest := batch :: rest |} ->
  is_None batch = false ->
  num_dataloaders (self w) = None ->
  call_hook trainer
    (mode_name trainer "on_test_batch_start" "on_validation_batch_start")
    [batch; PInt i; PInt d] = Ok v ->
  advance trainer dl dl_max d nd w
  = (Raise TypeError,
     {| self := pulled (self w) i rest;
        calls := calls w
                 ++ start_calls trainer None d i batch
                 ++ [ ProfileEnter "evaluation_step_and_end";
                      ProfileExit "evaluation_step_and_end" ] |}).
Proof.
  intros Hdl Hb Hn H.
  destruct w as [[ic p dlo mb di ndl bi outs] cs]. simpl in *. subst.
  rewrite (advance_pull trainer _ i batch rest) by trivial.
  unfold bind at 1.
  rewrite (on_evaluation_batch_start_eq trainer _ _ v _ _ H).
  unfold bind at 1. unfold profile. unfold bind at 1. unfold log at 1.
  unfold bind at 1.
  rewrite evaluation_step_unset by trivial.
  unfold start_calls, pulled. simpl. flatten_calls. reflexivity.
Qed.

(** X4.  When the step function of the mode raises, [advance] raises the
    same exception; both profiling scopes are left, and neither
    [cache_logged_metrics], nor the step-end hook, the batch-end hook or
    [store_predictions] is called. *)
Theorem advance_step_raises (w : World) (i n : Z) (batch v : pyval)
  (rest dl : list pyval) (dl_max d nd : Z) (e : exn) :
  dataloader (self w)
  = Some {| enum_next := i; enum_rest := batch :: rest |} ->
  is_None batch = false ->
  num_dataloaders (self w) = Some n ->
  call_hook trainer
    (mode_name trainer "on_test_batch_start" "on_validation_batch_start")
    [batch; PInt i; PInt d] = Ok v ->
  accelerator_step trainer (step_kwargs_for n batch i d) = Raise e ->
  advance trainer dl dl_max d nd w
  = (Raise e,
     {| self := pulled (self w) i rest;
        calls := calls w
                 ++ start_calls trainer (Some n) d i batch
                 ++ [ProfileEnter "evaluation_step_and_end"]
                 ++ step_calls trainer n d i batch
                 ++ [ProfileExit "evaluation_step_and_end"] |}).
Proof.
  intros Hdl Hb Hn H Hstep.
  destruct w as [[ic p dlo mb di ndl bi outs] cs]. simpl in *. subst.
  rewrite (advance_pull trainer _ i batch rest) by trivial.
  unfold bind at 1.
  rewrite (on_evaluation_batch_start_eq trainer _ _ v _ _ H).
  unfold bind at 1. unfold profile. unfold bind at 1. unfold log at 1.
  unfold bind at 1.
  rewrite (evaluation_step_raise trainer _ n _ _ _ e)
    by trivial.
  unfold start_calls, step_calls, pulled. simpl. flatten_calls. reflexivity.
Qed.

(** X5.  When the step-end hook of the mode raises, [advance] raises the
    same exception after the step was called once; the profiling scope is
    left, and the batch-end hook and [store_predictions] are not called. *)
Theorem advance_step_end_hook_raises (w : World) (i n : Z) (batch v o1 : pyval)
  (rest dl : list pyval) (dl_max d nd : Z) (e : exn) :
  dataloader (self w)
  = Some {| enum_next := i; enum_rest := batch :: rest |} ->
  is_None batch = false ->
  num_dataloaders (self w) = Some n ->
  call_hook trainer
    (mode_name trainer "on_test_batch_start" "on_validation_batch_start")
    [batch; PInt i; PInt d] = Ok v ->
  accelerator_step trainer (step_kwargs_for n batch i d) = Ok o1 ->
  call_hook trainer (mode_name trainer "test_step_end" "validation_step_end")
    [o1] = Raise e ->
  advance trainer dl dl_max d nd w
  = (Raise e,
     {| self := pulled (self w) i rest;
        calls := calls w
                 ++ start_calls trainer (Some n) d i batch
                 ++ [ProfileEnter "evaluation_step_and_end"]
                 ++ step_calls trainer n d i batch
                 ++ [CacheLoggedMetrics]
                 ++ (if is_Result o1 then [TrackBatchSize batch] else [])
                 ++ [ CallHook
                        (mode_name trainer "test_step_end"
                           "validation_step_end") [o1];
                      ProfileExit "evaluation_step_and_end" ] |}).
Proof.
  intros Hdl Hb Hn H Hstep Hend.
  destruct w as [[ic p dlo mb di ndl bi outs] cs]. simpl in *. subst.
  rewrite (advance_pull trainer _ i batch rest) by trivial.
  unfold bind at 1.
  rewrite (on_evaluation_batch_start_eq trainer _ _ v _ _ H).
  unfold bind at 1. unfold profile. unfold bind at 1. unfold log at 1.
  unfold bind at 1.
  rewrite (evaluation_step_eq trainer _ n _ o1)
    by trivial.
  rewrite (evaluation_step_end_raise trainer _ _ e Hend).
  unfold start_calls, step_calls, pulled. simpl. flatten_calls. reflexivity.
Qed.

(** X6.  When the batch-end hook of the mode raises, [advance] raises the
    same exception; [store_predictions] is not entered, so nothing is
    taken out of the output or added to the collection, the debugger is not
    told, and the output is not aggregated. *)
Theorem advance_batch_end_hook_raises (w : World) (i n : Z)
  (batch v o1 o2 : pyval) (rest dl : list pyval) (dl_max d nd : Z) (e : exn) :
  dataloader (self w)
  = Some {| enum_next := i; enum_rest := batch :: rest |} ->
  is_None batch = false ->
  num_dataloaders (self w) = Some n ->
  call_hook trainer
    (mode_name trainer "on_test_batch_start" "on_validation_batch_start")
    [batch; PInt i; PInt d] = Ok v ->
  accelerator_step trainer (step_kwargs_for n batch i d) = Ok o1 ->
  call_hook trainer (mode_name trainer "test_step_end" "validation_step_end")
    [o1] = Ok o2 ->
  call_hook trainer
    (mode_name trainer "on_test_batch_end" "on_validation_batch_end")
    [o2; batch; PInt i; PInt d] = Raise e ->
  advance trainer dl dl_max d nd w
  = (Raise e,
     {| self := pulled (self w) i rest;
        calls := calls w
                 ++ start_calls trainer (Some n) d i batch
                 ++ [ProfileEnter "evaluation_step_and_end"]
                 ++ step_calls trainer n d i batch
                 ++ [CacheLoggedMetrics]
                 ++ (if is_Result o1 then [TrackBatchSize batch] else [])
                 ++ [ CallHook
                        (mode_name trainer "test_step_end"
                           "validation_step_end") [o1];
                      ProfileExit "evaluation_step_and_end";
                      CallHook
                        (mode_name trainer "on_test_batch_end"
                           "on_validation_batch_end")
                        [o2; batch; PInt i; PInt d] ] |}).
Proof.
  intros Hdl Hb Hn H Hstep Hend Hbe.
  destruct w as [[ic p dlo mb di ndl bi outs] cs]. simpl in *. subst.
  rewrite (advance_pull trainer _ i batch rest) by trivial.
  unfold bind at 1.
  rewrite (on_evaluation_batch_start_eq trainer _ _ v _ _ H).
  unfold bind at 1. unfold profile. unfold bind at 1. unfold log at 1.
  unfold bind at 1.
  rewrite (evaluation_step_eq trainer _ n _ o1)
    by trivial.
  rewrite (evaluation_step_end_eq trainer _ _ o2 Hend).
  unfold bind at 1.
  rewrite (on_evaluation_batch_end_raise trainer _ _ _ _ _ e Hbe).
  unfold start_calls, step_calls, pulled. simpl. flatten_calls. reflexivity.
Qed.

End AdvanceRaises.

(** ** Further properties: every outcome of [advance] *)

Section Outcomes.

Variable trainer : Trainer.

(** [advance] either succeeds on the batch at the cursor, or raises with the
    loop as it was, or raises with nothing but the pull done. *)
Lemma advance_outcome (w : World) (dl : list pyval) (dl_max d nd : Z) :
  (exists i rest o2 w',
      advance trainer dl dl_max d nd w = (Ok tt, w')
      /\ self w' = after_batch trainer (self w) i rest o2)
  \/ (exists e w',
         advance trainer dl dl_max d nd w = (Raise e, w')
         /\ (self w' = self w
             \/ exists i rest, self w' = pulled (self w) i rest)).
Proof.
  destruct (dataloader (self w)) as [[i [|batch rest]]|] eqn:Hdl.
  - right. do 2 eexists. split; [now apply (advance_exhausted trainer w i)|].
    now left.
  - destruct (is_None batch) eqn:Hb.
    { right. do 2 eexists.
      split; [now apply (advance_null_batch trainer w i batch rest)|].
      right. now exists i, rest. }
    destruct (call_hook trainer
                (mode_name trainer "on_test_batch_start"
                   "on_validation_batch_start")
                [batch; PInt i; PInt d]) as [v|e] eqn:H1.
    2:{ right. do 2 eexists.
        split; [eapply (advance_start_hook_raises trainer w i batch rest); eassumption|].
        right. now exists i, rest. }
    destruct (num_dataloaders (self w)) as [n|] eqn:Hn.
    2:{ right. do 2 eexists.
        split; [eapply (advance_unset_num_dataloaders trainer w i batch v
                             rest); eassumption|].
        right. now exists i, rest. }
    destruct (accelerator_step trainer (step_kwargs_for n batch i d))
      as [o1|e] eqn:H2.
    2:{ right. do 2 eexists.
        split; [eapply (advance_step_raises trainer w i n batch v rest); eassumption|].
        right. now exists i, rest. }
    destruct (call_hook trainer
                (mode_name trainer "test_step_end" "validation_step_end")
                [o1]) as [o2|e] eqn:H3.
    2:{ right. do 2 eexists.
        split; [eapply (advance_step_end_hook_raises trainer w i n batch v
                             o1 rest); eassumption|].
        right. now exists i, rest. }
    destruct (call_hook trainer
                (mode_name trainer "on_test_batch_end"
                   "on_validation_batch_end")
                [o2; batch; PInt i; PInt d]) as [v4|e] eqn:H4.
    2:{ right. do 2 eexists.
        split; [eapply (advance_batch_end_hook_raises trainer w i n batch v
                             o1 o2 rest); eassumption|].
        right. now exists i, rest. }
    left. exists i, rest, o2. eexists. split.
    + apply (advance_ok trainer w i batch rest n dl_max d nd dl o1 o2);
        trivial.
      eapply batch_output_intro; eauto.
    + reflexivity.
  - right. do 2 eexists. split; [now apply advance_no_iterator|]. now left.
Qed.

(** X1.  Whatever its outcome, [advance] leaves the iteration count and what
    [on_run_start] stored of the limit, the source index and the number of
    sources as they were. *)
Theorem advance_keeps_configuration (w : World) (dl : list pyval)
  (dl_max d nd : Z) :
  let l' := self (snd (advance trainer dl dl_max d nd w)) in
  iteration_count l' = iteration_count (self w)
  /\ dl_max_batches l' = dl_max_batches (self w)
  /\ dataloader_idx l' = dataloader_idx (self w)
  /\ num_dataloaders l' = num_dataloaders (self w).
Proof.
  cbv zeta.
  destruct (advance_outcome w dl dl_max d nd)
    as [(i & rest & o2 & w' & -> & Hs)
       |(e & w' & -> & [Hs|(i & rest & Hs)])];
    cbn [snd]; rewrite Hs; auto.
Qed.

(** X2.  An [advance] that raises, whatever the exception and wherever it
    comes from, has not touched the aggregated outputs. *)
Theorem advance_raise_keeps_outputs (w w' : World) (dl : list pyval)
  (dl_max d nd : Z) (e : exn) :
  advance trainer dl dl_max d nd w = (Raise e, w') ->
  outputs (self w') = outputs (self w).
Proof.
  intros H.
  destruct (advance_outcome w dl dl_max d nd)
    as [(i & rest & o2 & w1 & H1 & Hs)
       |(e1 & w1 & H1 & [Hs|(i & rest & Hs)])];
    rewrite H1 in H; try discriminate; injection H as _ <-;
    rewrite Hs; reflexivity.
Qed.

End Outcomes.

Lemma advance_raise_keeps_outputs_witness :
  outputs
    (self (snd (advance (faulty_trainer true "on_test_batch_end")
                  [PInt 10] 1 0 1
                  (started (faulty_trainer true "on_test_batch_end") init []
                     [PInt 10] 1 0 1))))
  = [].
Proof.
  apply (advance_raise_keeps_outputs
           (faulty_trainer true "on_test_batch_end")
           (started (faulty_trainer true "on_test_batch_end") init []
              [PInt 10] 1 0 1)
           _ [PInt 10] 1 0 1 (OtherException "RuntimeError")).
  reflexivity.
Defined.

Lemma advance_start_hook_raises_witness :
  advance (faulty_trainer false "on_validation_batch_start") [PInt 10] 1 0 1
    (started (faulty_trainer false "on_validation_batch_start") init []
       [PInt 10] 1 0 1)
  = (Raise (OtherException "RuntimeError"),
     {| self :=
          pulled
            (self (started (faulty_trainer false "on_validation_batch_start")
                     init [] [PInt 10] 1 0 1)) 0 [];
        calls :=
          [ LoggerOnEvaluationBatchStart (PInt 10) 0 (Some 1);
            CallHook "on_validation_batch_start"
              [PInt 10; PInt 0; PInt 0] ] |}).
Proof.
  apply (advance_start_hook_raises
           (faulty_trainer false "on_validation_batch_start")
           (started (faulty_trainer false "on_validation_batch_start") init []
              [PInt 10] 1 0 1)
           0 (PInt 10) [] [PInt 10] 1 0 1 (OtherException "RuntimeError"));
    reflexivity.
Defined.

Lemma advance_unset_num_dataloaders_witness :
  let w :=
    {| self :=
         reset (example_trainer true)
           (on_run_start init [PInt 10; PInt 11] 5 0 1);
       calls := [] |} in
  advance (example_trainer true) [PInt 10; PInt 11] 5 0 1 w
  = (Raise TypeError,
     {| self := pulled (self w) 0 [PInt 11];
        calls :=
          [ LoggerOnEvaluationBatchStart (PInt 10) 0 None;
            CallHook "on_test_batch_start" [PInt 10; PInt 0; PInt 0];
            ProfileEnter "evaluation_step_and_end";
            ProfileExit "evaluation_step_and_end" ] |}).
Proof.
  cbv zeta.
  apply (advance_unset_num_dataloaders (example_trainer true)
           {| self :=
                reset (example_trainer true)
                  (on_run_start init [PInt 10; PInt 11] 5 0 1);
              calls := [] |}
           0 (PInt 10) PNone [PInt 11] [PInt 10; PInt 11] 5 0 1);
    reflexivity.
Defined.

Lemma advance_step_raises_witness :
  advance (faulty_trainer true "test_step") [PInt 10] 1 0 1
    (started (faulty_trainer true "test_step") init [] [PInt 10] 1 0 1)
  = (Raise (OtherException "RuntimeError"),
     {| self :=
          pulled (self (started (faulty_trainer true "test_step") init []
                          [PInt 10] 1 0 1)) 0 [];
        calls :=
          [ LoggerOnEvaluationBatchStart (PInt 10) 0 (Some 1);
            CallHook "on_test_batch_start" [PInt 10; PInt 0; PInt 0];
            ProfileEnter "evaluation_step_and_end";
            NewResults;
            SetCurrentFxName "test_step";
            ProfileEnter "test_step";
            AcceleratorTestStep [("batch", PInt 10); ("batch_idx", PInt 0)];
            ProfileExit "test_step";
            ProfileExit "evaluation_step_and_end" ] |}).
Proof.
  apply (advance_step_raises (faulty_trainer true "test_step")
           (started (faulty_trainer true "test_step") init [] [PInt 10] 1 0 1)
           0 1 (PInt 10) PNone [] [PInt 10] 1 0 1
           (OtherException "RuntimeError"));
    reflexivity.
Defined.

Lemma advance_step_end_hook_raises_witness :
  fst (advance (faulty_trainer true "test_step_end") [PInt 10] 1 0 1
         (started (faulty_trainer true "test_step_end") init [] [PInt 10]
            1 0 1))
  = Raise (OtherException "RuntimeError").
Proof.
  rewrite (advance_step_end_hook_raises (faulty_trainer true "test_step_end")
             (started (faulty_trainer true "test_step_end") init []
                [PInt 10] 1 0 1)
             0 1 (PInt 10) PNone
             (PResult [("predictions", PList [PInt 10])])
             [] [PInt 10] 1 0 1 (OtherException "RuntimeError"));
    reflexivity.
Defined.

Lemma advance_batch_end_hook_raises_witness :
  predictions
    (self (snd (advance (faulty_trainer true "on_test_batch_end") [PInt 10]
                  1 0 1
                  (started (faulty_trainer true "on_test_batch_end") init []
                     [PInt 10] 1 0 1))))
  = Some (PredictionCollection.new 0 1).
Proof.
  rewrite (advance_batch_end_hook_raises
             (faulty_trainer true "on_test_batch_end")
             (started (faulty_trainer true "on_test_batch_end") init []
                [PInt 10] 1 0 1)
             0 1 (PInt 10) PNone
             (PResult [("predictions", PList [PInt 10])])
             (PResult [("predictions", PList [PInt 10])])
             [] [PInt 10] 1 0 1 (OtherException "RuntimeError"));
    reflexivity.
Defined.

(** ** Further properties: [store_predictions] *)

Lemma pop_absent (d : OrderedDict.t) (k : string) (default : pyval) :
  ~ In k (OrderedDict.keys d) ->
  OrderedDict.pop d k default = (default, d).
Proof.
  induction d as [|[k' v'] d IH]; simpl; intros H; [reflexivity|].
  destruct (String.eqb_spec k' k) as [->|Hne].
  - exfalso. apply H. now left.
  - rewrite IH by (intros Hin; apply H; now right). reflexivity.
Qed.

Lemma pop_rest_filter (d : OrderedDict.t) (k : string) (default : pyval) :
  NoDup (OrderedDict.keys d) ->
  snd (OrderedDict.pop d k default)
  = filter (fun kv => negb (String.eqb (fst kv) k)) d.
Proof.
  induction d as [|[k' v'] d IH]; simpl; intros H; [reflexivity|].
  inversion H as [|? ? Hnin Hnd]; subst.
  destruct (String.eqb_spec k' k) as [->|Hne]; simpl.
  - symmetry. apply forallb_filter_id. apply forallb_forall.
    intros [k1 v1] Hin. simpl. apply negb_true_iff.
    apply String.eqb_neq. intros ->. apply Hnin.
    unfold OrderedDict.keys. apply in_map_iff. now exists (k, v1).
  - specialize (IH Hnd).
    destruct (OrderedDict.pop d k default) as [v r]. simpl in *.
    now rewrite IH.
Qed.

Section StorePredictions.

Variable trainer : Trainer.

(** X8.  On a loop without a prediction collection, which is the case until
    the first [reset], [store_predictions] takes nothing out of the output,
    whatever the mode and the output; it only tells the debugger. *)
Theorem store_predictions_without_collection (w : World) (output : pyval)
  (i d : Z) :
  predictions (self w) = None ->
  store_predictions trainer output i d w
  = (Ok output,
     {| self := self w;
        calls := calls w
                 ++ [ StorePredictions output i d;
                      TrackEvalLossHistory i d output ] |}).
Proof.
  intros Hp. rewrite store_predictions_eq.
  destruct w as [[ic p dlo mb di ndl bi outs] cs]. simpl in Hp. subst p.
  unfold kept, collect, popped, set_predictions. simpl.
  destruct output; reflexivity.
Qed.

(** X9.  In test mode a [Result] output without a [predictions] key is
    handed back as it is, and the collection's [add] is called with
    [None]. *)
Theorem store_predictions_missing_key (w : World)
  (fields : list (string * pyval)) (c : PredictionCollection.t) (i d : Z) :
  testing trainer = true ->
  predictions (self w) = Some c ->
  ~ In "predictions" (OrderedDict.keys fields) ->
  store_predictions trainer (PResult fields) i d w
  = (Ok (PResult fields),
     {| self :=
          set_predictions (Some (PredictionCollection.add c PNone)) (self w);
        calls := calls w
                 ++ [ StorePredictions (PResult fields) i d;
                      PredictionsAdd PNone;
                      TrackEvalLossHistory i d (PResult fields) ] |}).
Proof.
  intros Ht Hp Hk. rewrite store_predictions_eq.
  unfold kept, collect, popped. rewrite Hp, Ht.
  rewrite (pop_absent fields "predictions" PNone Hk). reflexivity.
Qed.

(** X10.  In test mode, with a collection, [store_predictions] hands a
    [Result] output back with its other keys in their order and without the
    [predictions] key, whose value is what the collection's [add] gets. *)
Theorem store_predictions_removes_only_predictions (w : World)
  (fields : list (string * pyval)) (c : PredictionCollection.t) (i d : Z) :
  testing trainer = true ->
  predictions (self w) = Some c ->
  NoDup (OrderedDict.keys fields) ->
  let fields' :=
    filter (fun kv => negb (String.eqb (fst kv) "predictions")) fields in
  fst (store_predictions trainer (PResult fields) i d w)
  = Ok (PResult fields')
  /\ ~ In "predictions" (OrderedDict.keys fields')
  /\ predictions (self (snd (store_predictions trainer (PResult fields) i d w)))
     = Some (PredictionCollection.add c
               (get_field (PResult fields) "predictions")).
Proof.
  intros Ht Hp Hnd fields'. rewrite store_predictions_eq.
  unfold kept, collect, popped, get_field. rewrite Hp, Ht. cbn [fst snd self].
  rewrite (pop_rest_filter fields "predictions" PNone Hnd).
  split; [reflexivity|split; [|reflexivity]].
  unfold OrderedDict.keys. intros Hin. apply in_map_iff in Hin
    as ([k v] & Hk & Hin). simpl in Hk. subst k.
  apply filter_In in Hin as [_ Hf]. simpl in Hf. discriminate Hf.
Qed.

End StorePredictions.

Lemma store_predictions_without_collection_witness :
  store_predictions (example_trainer true)
    (PResult [("predictions", PList [PInt 7])]) 0 0
    {| self := on_run_start init [PInt 10] 1 0 1; calls := [] |}
  = (Ok (PResult [("predictions", PList [PInt 7])]),
     {| self := on_run_start init [PInt 10] 1 0 1;
        calls :=
          [ StorePredictions (PResult [("predictions", PList [PInt 7])]) 0 0;
            TrackEvalLossHistory 0 0
              (PResult [("predictions", PList [PInt 7])]) ] |}).
Proof.
  apply (store_predictions_without_collection (example_trainer true)
           {| self := on_run_start init [PInt 10] 1 0 1; calls := [] |}
           (PResult [("predictions", PList [PInt 7])]) 0 0).
  reflexivity.
Defined.

Lemma store_predictions_missing_key_witness :
  fst (store_predictions (example_trainer true) (PResult [("loss", PInt 3)])
         0 0 (started (example_trainer true) init [] [PInt 10] 1 0 1))
  = Ok (PResult [("loss", PInt 3)]).
Proof.
  rewrite (store_predictions_missing_key (example_trainer true)
             (started (example_trainer true) init [] [PInt 10] 1 0 1)
             [("loss", PInt 3)] (PredictionCollection.new 0 1) 0 0).
  - reflexivity.
  - reflexivity.
  - reflexivity.
  - simpl. intros [H|[]]. discriminate H.
Defined.

Lemma store_predictions_removes_only_predictions_witness :
  let w := started (example_trainer true) init [] [PInt 10] 1 0 1 in
  let fields :=
    [("loss", PInt 3); ("predictions", PList [PInt 7]); ("acc", PInt 1)] in
  fst (store_predictions (example_trainer true) (PResult fields) 0 0 w)
  = Ok (PResult [("loss", PInt 3); ("acc", PInt 1)])
  /\ ~ In "predictions" (OrderedDict.keys [("loss", PInt 3); ("acc", PInt 1)])
  /\ predictions
       (self (snd (store_predictions (example_trainer true) (PResult fields)
                     0 0 w)))
     = Some (PredictionCollection.add (PredictionCollection.new 0 1)
               (PList [PInt 7])).
Proof.
  cbv zeta.
  apply (store_predictions_removes_only_predictions (example_trainer true)
           (started (example_trainer true) init [] [PInt 10] 1 0 1)
           [("loss", PInt 3); ("predictions", PList [PInt 7]); ("acc", PInt 1)]
           (PredictionCollection.new 0 1) 0 0).
  - reflexivity.
  - reflexivity.
  - repeat constructor; simpl; intuition discriminate.
Defined.

(** ** Further properties: sequences of [advance] *)

Section Sequences.

Variable trainer : Trainer.

(** X11.  The step-end hook replaces the output altogether: when it returns
    [None], [advance] still succeeds, but nothing is taken to the prediction
    collection, whatever the step itself returned, and [None] is what the
    batch-end hook, the debugger and the aggregation get. *)
Theorem advance_step_end_none (w : World) (i n : Z) (batch o1 : pyval)
  (rest dl : list pyval) (dl_max d nd : Z) :
  dataloader (self w)
  = Some {| enum_next := i; enum_rest := batch :: rest |} ->
  is_None batch = false ->
  num_dataloaders (self w) = Some n ->
  batch_output trainer n d i batch = Ok (o1, PNone) ->
  exists w',
    advance trainer dl dl_max d nd w = (Ok tt, w')
    /\ predictions (self w') = predictions (self w)
    /\ outputs (self w')
       = _track_output_for_epoch_end trainer (outputs (self w)) PNone
    /\ In (TrackEvalLossHistory i d PNone) (calls w')
    /\ In (TrackOutputForEpochEnd PNone) (calls w')
    /\ forall v, ~ In (PredictionsAdd v)
                      (skipn (List.length (calls w)) (calls w')).
Proof.
  intros Hdl Hb Hn Hout. eexists. split.
  - exact (advance_ok trainer w i batch rest n dl_max d nd dl o1 PNone
             Hdl Hb Hn Hout).
  - cbn [self calls]. unfold after_batch, collect, popped, kept.
    cbn [predictions outputs].
    assert (Hc : match predictions (self w) with
                 | Some _ => predictions (self w)
                 | None => predictions (self w)
                 end = predictions (self w))
      by (destruct (predictions (self w)); reflexivity).
    repeat split.
    + destruct (predictions (self w)); reflexivity.
    + apply in_or_app. right. unfold batch_calls, popped, kept.
      apply in_or_app. right. apply in_or_app. right.
      apply in_or_app. right. apply in_or_app. right. simpl. auto.
    + apply in_or_app. right. unfold batch_calls, popped, kept.
      apply in_or_app. right. apply in_or_app. right.
      apply in_or_app. right. apply in_or_app. right. simpl. auto.
    + intros v. rewrite skipn_length_app. unfold batch_calls, popped, kept.
      unfold step_event, mode_name.
      destruct (testing trainer), (is_Result o1); simpl;
        intuition discriminate.
Qed.

(** X12.  Successful calls of [advance] consume the source one batch each:
    [k] of them in a row need [k] batches at the cursor, none of them null,
    leave the cursor [k] batches further with [batch_idx] at the index of
    the last one, and do not touch the limit. *)
Theorem advances_consume_cursor (dl : list pyval) (dl_max d nd : Z) :
  forall (k : nat) (w w' : World) (e : Enumerate) (u : unit),
    dataloader (self w) = Some e ->
    advances trainer k dl dl_max d nd w = (Ok u, w') ->
    (k <= List.length (enum_rest e))%nat
    /\ Forall (fun b => is_None b = false) (firstn k (enum_rest e))
    /\ dataloader (self w')
       = Some {| enum_next := enum_next e + Z.of_nat k;
                 enum_rest := skipn k (enum_rest e) |}
    /\ dl_max_batches (self w') = dl_max_batches (self w)
    /\ ((0 < k)%nat ->
        batch_idx (self w') = Some (enum_next e + Z.of_nat k - 1)).
Proof.
  induction k as [|k IH]; intros w w' e u He Ha.
  - simpl in Ha. injection Ha as _ <-. rewrite He. destruct e as [i r].
    simpl. rewrite Z.add_0_r. repeat split; auto; lia.
  - cbn [advances] in Ha.
    apply bind_Ok_inv in Ha as (u1 & w1 & Ha & Hk).
    pose proof (advance_Ok_inv trainer _ _ _ _ _ _ _ Ha)
      as (i & batch & rest & n & o1 & o2 & Hdl & Hb & Hn & Hout).
    destruct u1.
    rewrite (advance_ok trainer w i batch rest n dl_max d nd dl o1 o2)
      in Ha by assumption.
    injection Ha as <-.
    rewrite He in Hdl. injection Hdl as ->.
    pose proof Hk as Hk'.
    eapply (IH _ _ {| enum_next := i + 1; enum_rest := rest |}) in Hk';
      [|reflexivity].
    destruct Hk' as (H1 & H2 & H3 & H4 & H5).
    cbn [enum_next enum_rest] in *.
    repeat split.
    + simpl. lia.
    + simpl. constructor; assumption.
    + rewrite H3. simpl. do 2 f_equal. lia.
    + rewrite H4. reflexivity.
    + intros _. destruct k as [|k].
      * simpl in Hk. injection Hk as _ <-. simpl. do 2 f_equal. lia.
      * rewrite H5 by lia. f_equal. lia.
Qed.

(** X13.  After [on_run_start] with limit [N], once [k >= 1] calls of
    [advance] have succeeded, [done] is [N <= k - 1], whatever index an
    earlier run left: it turns true with the advance number [N + 1], or
    with the first one when [N <= 0]. *)
Theorem done_after_advances (l : EvaluationLoop) (cs : list Event)
  (src dl : list pyval) (N d nd dl_max d' nd' : Z) (k : nat) (u : unit)
  (w' : World) :
  advances trainer k dl dl_max d' nd'
    {| self := on_run_start l src N d nd; calls := cs |}
  = (Ok u, w') ->
  (0 < k)%nat ->
  done (self w') = Ok (N <=? Z.of_nat k - 1).
Proof.
  intros Ha Hk.
  destruct (advances_consume_cursor dl dl_max d' nd' k
              {| self := on_run_start l src N d nd; calls := cs |} w'
              (enumerate src) u eq_refl Ha) as (_ & _ & _ & H4 & H5).
  unfold done. rewrite (H5 Hk), H4. reflexivity.
Qed.

(** X14.  A null batch is consumed, not retried: after the [StopIteration]
    it caused, a further [advance] processes the batch behind it, under the
    index that counts the null batch. *)
Theorem advance_after_null_batch (w : World) (i n : Z) (batch o1 o2 : pyval)
  (rest dl : list pyval) (dl_max d nd : Z) :
  dataloader (self w)
  = Some {| enum_next := i; enum_rest := PNone :: batch :: rest |} ->
  is_None batch = false ->
  num_dataloaders (self w) = Some n ->
  batch_output trainer n d (i + 1) batch = Ok (o1, o2) ->
  exists w1 w2,
    advance trainer dl dl_max d nd w = (Raise StopIteration, w1)
    /\ advance trainer dl dl_max d nd w1 = (Ok tt, w2)
    /\ batch_idx (self w2) = Some (i + 1)
    /\ In (step_event trainer (step_kwargs_for n batch (i + 1) d))
          (skipn (List.length (calls w1)) (calls w2)).
Proof.
  intros Hdl Hb Hn Hout. eexists. eexists. split.
  - exact (advance_null_batch trainer w i PNone (batch :: rest) dl dl_max d
             nd Hdl eq_refl).
  - split; [|split].
    + apply (advance_ok trainer _ (i + 1) batch rest n dl_max d nd dl o1 o2);
        trivial.
    + reflexivity.
    + cbn [calls]. rewrite skipn_length_app.
      unfold batch_calls. simpl. auto 10.
Qed.

(** X15.  In a successful [advance] the batch size is tracked exactly when
    the step function returned a [Result]; what the step-end hook makes of
    the output does not matter. *)
Theorem advance_tracks_batch_size_of_result (w : World) (i n : Z)
  (batch o1 o2 : pyval) (rest dl : list pyval) (dl_max d nd : Z) :
  dataloader (self w)
  = Some {| enum_next := i; enum_rest := batch :: rest |} ->
  is_None batch = false ->
  num_dataloaders (self w) = Some n ->
  batch_output trainer n d i batch = Ok (o1, o2) ->
  In (TrackBatchSize batch)
     (skipn (List.length (calls w))
        (calls (snd (advance trainer dl dl_max d nd w))))
  <-> is_Result o1 = true.
Proof.
  intros Hdl Hb Hn Hout.
  rewrite (advance_ok trainer w i batch rest n dl_max d nd dl o1 o2)
    by assumption.
  cbn [snd calls]. rewrite skipn_length_app.
  unfold batch_calls, step_event, mode_name.
  destruct (testing trainer), (is_Result o1),
    (popped trainer (predictions (self w)) o2); simpl;
    intuition discriminate.
Qed.

End Sequences.

(** A test-mode host whose hooks all return [None]. *)
Definition silent_trainer : Trainer :=
  {| testing := true;
     global_rank := 0;
     world_size := 1;
     call_hook := fun _ _ => Ok PNone;
     accelerator_test_step := example_step;
     accelerator_validation_step := example_step;
     _track_output_for_epoch_end := default_track_output |}.

Lemma advance_step_end_none_witness :
  exists w',
    advance silent_trainer [PInt 10] 1 0 1
      (started silent_trainer init [] [PInt 10] 1 0 1)
    = (Ok tt, w')
    /\ predictions (self w') = Some (PredictionCollection.new 0 1)
    /\ outputs (self w') = default_track_output [] PNone
    /\ In (TrackEvalLossHistory 0 0 PNone) (calls w')
    /\ In (TrackOutputForEpochEnd PNone) (calls w')
    /\ forall v, ~ In (PredictionsAdd v) (skipn 0 (calls w')).
Proof.
  apply (advance_step_end_none silent_trainer
           (started silent_trainer init [] [PInt 10] 1 0 1)
           0 1 (PInt 10) (PResult [("predictions", PList [PInt 10])])
           [] [PInt 10] 1 0 1);
    reflexivity.
Defined.

Lemma advances_consume_cursor_witness :
  let w := started (example_trainer true) init [] [PInt 10; PInt 11; PInt 12]
             5 0 1 in
  let w' := snd (advances (example_trainer true) 2 [] 5 0 1 w) in
  (2 <= 3)%nat
  /\ Forall (fun b => is_None b = false) [PInt 10; PInt 11]
  /\ dataloader (self w')
     = Some {| enum_next := 0 + 2; enum_rest := [PInt 12] |}
  /\ dl_max_batches (self w') = Some 5
  /\ ((0 < 2)%nat -> batch_idx (self w') = Some (0 + 2 - 1)).
Proof.
  cbv zeta.
  refine (advances_consume_cursor (example_trainer true) [] 5 0 1 2
            (started (example_trainer true) init []
               [PInt 10; PInt 11; PInt 12] 5 0 1)
            (snd (advances (example_trainer true) 2 [] 5 0 1
                    (started (example_trainer true) init []
                       [PInt 10; PInt 11; PInt 12] 5 0 1)))
            (enumerate [PInt 10; PInt 11; PInt 12]) tt eq_refl _).
  vm_compute. reflexivity.
Defined.

Lemma done_after_advances_witness :
  done
    (self (snd (advances (example_trainer true) 2 [] 1 0 1
                  {| self := on_run_start init [PInt 10; PInt 11; PInt 12]
                               1 0 1;
                     calls := [] |})))
  = Ok (1 <=? 2 - 1).
Proof.
  refine (done_after_advances (example_trainer true) init []
            [PInt 10; PInt 11; PInt 12] [] 1 0 1 1 0 1 2 tt
            (snd (advances (example_trainer true) 2 [] 1 0 1
                    {| self := on_run_start init [PInt 10; PInt 11; PInt 12]
                                 1 0 1;
                       calls := [] |})) _ _).
  - vm_compute. reflexivity.
  - lia.
Defined.

Lemma advance_after_null_batch_witness :
  exists w1 w2,
    advance (example_trainer false) [] 5 0 1
      (started (example_trainer false) init [] [PNone; PInt 11] 5 0 1)
    = (Raise StopIteration, w1)
    /\ advance (example_trainer false) [] 5 0 1 w1 = (Ok tt, w2)
    /\ batch_idx (self w2) = Some (0 + 1)
    /\ In (step_event (example_trainer false)
             (step_kwargs_for 1 (PInt 11) (0 + 1) 0))
          (skipn (List.length (calls w1)) (calls w2)).
Proof.
  apply (advance_after_null_batch (example_trainer false)
           (started (example_trainer false) init [] [PNone; PInt 11] 5 0 1)
           0 1 (PInt 11)
           (PResult [("predictions", PList [PInt 11])])
           (PResult [("predictions", PList [PInt 11])])
           [] [] 5 0 1);
    reflexivity.
Defined.

Lemma advance_tracks_batch_size_of_result_witness :
  In (TrackBatchSize (PInt 10))
     (skipn 0
        (calls (snd (advance silent_trainer [PInt 10] 1 0 1
                       (started silent_trainer init [] [PInt 10] 1 0 1)))))
  <-> true = true.
Proof.
  apply (advance_tracks_batch_size_of_result silent_trainer
           (started silent_trainer init [] [PInt 10] 1 0 1)
           0 1 (PInt 10) (PResult [("predictions", PList [PInt 10])]) PNone
           [] [PInt 10] 1 0 1);
    reflexivity.
Defined.
